(** Verification of the video emotion analysis backend
    (backend/emotion_detector.py and backend/main.py).

    The Python code is embedded shallowly:
    - a Python call that may raise is a value of [result], and a
      [try ... except Exception] block is [try_except];
    - result dictionaries are finite maps from key to [pyval];
    - the OpenCV / Keras calls are the fields of a [Backend] record, each of
      which may raise;
    - a video file is the list of frames that [cap.read()] delivers before it
      first reports failure;
    - the generator [extract_frames] is a state machine with [gen_next] and
      [gen_close], and [list(...)] runs it to exhaustion;
    - scores are finite floating point numbers, modelled by the rationals they
      denote (the widening [float(...)] of a float32 is exact);
    - the job store is a finite map, changed only by the two writes made
      under [_job_lock]; the server is the interleaving of these writes;
    - file names are byte strings;
    - [print] and [log.error] are left out. *)

From Stdlib Require Import ZArith QArith Lia Lqa Ascii.
From stdpp Require Import gmap strings list fin_maps.

Set Warnings "-clear-no-such-hyp".

Open Scope string_scope.
Open Scope list_scope.
Open Scope Z_scope.

(** * Python values, exceptions and results *)

(** An exception instance: its class and [str(e)]. *)
Record exn := Exn { exn_class : string; exn_str : string }.

Inductive result (A : Type) : Type :=
| Ok (a : A)
| Raise (e : exn).
Arguments Ok {A} a.
Arguments Raise {A} e.

#[global] Instance result_ret : MRet result := fun A a => Ok a.

#[global] Instance result_bind : MBind result := fun A B k r =>
  match r with
  | Ok a => k a
  | Raise e => Raise e
  end.

#[global] Instance result_fmap : FMap result := fun A B f r =>
  match r with
  | Ok a => Ok (f a)
  | Raise e => Raise e
  end.

(** [try: body except Exception as e: handler e]. *)
Definition try_except {A} (body : result A) (handler : exn -> result A) : result A :=
  match body with
  | Ok a => Ok a
  | Raise e => handler e
  end.

(** The values stored in result dictionaries. *)
Inductive pyval :=
| VInt (n : Z)
| VFloat (q : Q)
| VStr (s : string)
| VDict (d : gmap string Q).

Abbreviation pydict := (gmap string pyval).

(** A dictionary display [{k1: v1, ...}] or comprehension [{k: v for ...}]:
    the pairs are stored from left to right, a later pair overwriting an
    earlier one with the same key. *)
Definition store_pairs {V} (d : gmap string V) (pairs : list (string * V))
  : gmap string V :=
  foldl (fun d kv => <[kv.1 := kv.2]> d) d pairs.

Definition py_dict {V} (pairs : list (string * V)) : gmap string V :=
  store_pairs ∅ pairs.

(** [l[i]] for a non-negative index. *)
Definition list_getitem {A} (l : list A) (i : nat) : result A :=
  match l !! i with
  | Some a => Ok a
  | None => Raise (Exn "IndexError" "list index out of range")
  end.

(** Bound normalisation of a slice [a:b] on a sequence of length [len]. *)
Definition slice_bound (len i : Z) : Z :=
  if i <? 0 then Z.max (i + len) 0 else Z.min i len.

Definition py_slice {A} (l : list A) (start stop : Z) : list A :=
  let len := Z.of_nat (length l) in
  let s := slice_bound len start in
  let e := slice_bound len stop in
  take (Z.to_nat (e - s)) (drop (Z.to_nat s) l).

(** Arithmetic on [np.int32] scalars wraps around. *)
Definition int32 (z : Z) : Z := (z + 2 ^ 31) mod 2 ^ 32 - 2 ^ 31.

(** [max(l, key=key)]: the first element whose key is not exceeded. *)
Fixpoint py_max_from {A} (key : A -> Z) (best : A) (l : list A) : A :=
  match l with
  | [] => best
  | x :: r => if key best <? key x then py_max_from key x r
              else py_max_from key best r
  end.

Definition py_max {A} (key : A -> Z) (l : list A) : result A :=
  match l with
  | [] => Raise (Exn "ValueError" "max() arg is an empty sequence")
  | x :: r => Ok (py_max_from key x r)
  end.

(** [np.argmax]: index of the first occurrence of the maximum. *)
Fixpoint argmax_from (best : Q) (besti i : nat) (l : list Q) : nat :=
  match l with
  | [] => besti
  | x :: r => if Qle_bool x best then argmax_from best besti (S i) r
              else argmax_from x i (S i) r
  end.

Definition np_argmax (l : list Q) : result nat :=
  match l with
  | [] => Raise (Exn "ValueError" "attempt to get argmax of an empty sequence")
  | x :: r => Ok (argmax_from x 0 1 r)
  end.

(** * Images *)

(** A BGR pixel; a frame ([np.ndarray]) is an array of rows of pixels. *)
Definition pixel : Type := Z * Z * Z.
Abbreviation ndarray := (list (list pixel)).
Abbreviation gray := (list (list Z)).
Abbreviation tensor := (list (list (Q * Q * Q))).

(** [frame.size]: the number of array elements. *)
Definition ndarray_size (f : ndarray) : Z :=
  3 * Z.of_nat (length (concat f)).

(** A bounding box [(x, y, width, height)]. *)
Definition bbox : Type := Z * Z * Z * Z.

(** * backend/emotion_detector.py *)

(** [EmotionDetectorSettings]; the two paths are only used when the models are
    loaded and are left out. *)
Record EmotionDetectorSettings := {
  frame_interval : Z;
  keras_img_size : Z;
  keras_emotions : list string
}.

Definition default_settings : EmotionDetectorSettings := {|
  frame_interval := 5;
  keras_img_size := 224;
  keras_emotions :=
    ["angry"; "disgust"; "fear"; "happy"; "sad"; "surprise"; "neutral"; "contempt"]
|}.

(** The library calls made by the detector. [detectMultiScale] stands for the
    call with the fixed arguments of [detect_faces]; [model_predict x] is
    [self.model.predict(np.expand_dims(x, 0), verbose=0)[0]]. *)
Record Backend := {
  cv2_resize : ndarray -> Z * Z -> result ndarray;
  cv2_cvtColor_BGR2RGB : ndarray -> result ndarray;
  cv2_cvtColor_BGR2GRAY : ndarray -> result gray;
  preprocess_input : ndarray -> result tensor;
  model_predict : tensor -> result (list Q);
  detectMultiScale : gray -> result (list bbox)
}.

(** ** cv2.VideoCapture *)

Record VideoCapture := {
  cap_isOpened : bool;
  cap_pending : list ndarray;
  cap_released : bool
}.

(** The videos on disk: the frames a path decodes to, if it can be opened. *)
Definition videos : Type := string -> option (list ndarray).

(** An opened capture that still holds the frames [pending]. *)
Definition open_cap (pending : list ndarray) : VideoCapture :=
  {| cap_isOpened := true; cap_pending := pending; cap_released := false |}.

Definition cv2_VideoCapture (fs : videos) (video_path : string) : VideoCapture :=
  match fs video_path with
  | Some fr => open_cap fr
  | None => {| cap_isOpened := false; cap_pending := []; cap_released := false |}
  end.

Definition cap_release (cap : VideoCapture) : VideoCapture :=
  {| cap_isOpened := false; cap_pending := []; cap_released := true |}.

(** The exception of [%] by zero on integers, with the message of CPython
    3.11 and later (before, it read "integer division or modulo by zero"). *)
Definition ZeroDivisionError : exn :=
  Exn "ZeroDivisionError" "integer modulo by zero".

(** [a % b] on Python integers. *)
Definition py_mod (a b : Z) : result Z :=
  if b =? 0 then Raise ZeroDivisionError else Ok (a mod b).

Module EmotionDetector.

(** The object: its settings and the loaded models. *)
Record t := {
  settings : EmotionDetectorSettings;
  backend : Backend
}.

(** *** extract_frames *)

(** The generator object: not started, suspended at [yield frame] (with the
    frames its capture still holds), or finished. A finished generator keeps
    the capture object it left behind, so that its state can be inspected. *)
Inductive generator :=
| GenCreated (video_path : string) (interval : option Z)
| GenSuspended (interval : Z) (pending : list ndarray) (frame_count : Z)
| GenFinished (cap : option VideoCapture).

Inductive outcome :=
| Yield (f : ndarray)
| StopIteration
| Raised (e : exn).

Definition extract_frames (self : t) (video_path : string) (interval : option Z)
  : generator := GenCreated video_path interval.

(** The [while True] loop from [cap.read()] up to the next [yield], the
    [break] or an exception; [pending] are the frames the capture still holds. *)
Fixpoint loop_next (interval : Z) (pending : list ndarray) (frame_count : Z)
  : generator * outcome :=
  match pending with
  | [] =>
      (GenFinished (Some (cap_release (open_cap []))), StopIteration)
  | f :: rest =>
      match py_mod frame_count interval with
      | Raise e => (GenFinished (Some (open_cap rest)), Raised e)
      | Ok m =>
          if m =? 0 then (GenSuspended interval rest frame_count, Yield f)
          else loop_next interval rest (frame_count + 1)
      end
  end.

(** [next(g)]. *)
Definition gen_next (self : t) (fs : videos) (g : generator) : generator * outcome :=
  match g with
  | GenCreated video_path interval =>
      let interval :=
        match interval with
        | None => frame_interval (settings self)
        | Some n => n
        end in
      let cap := cv2_VideoCapture fs video_path in
      if negb (cap_isOpened cap) then
        (GenFinished (Some cap),
         Raised (Exn "RuntimeError" ("Cannot open video: " +:+ video_path)))
      else loop_next interval (cap_pending cap) 0
  | GenSuspended interval pending frame_count =>
      loop_next interval pending (frame_count + 1)
  | GenFinished cap => (GenFinished cap, StopIteration)
  end.

(** [g.close()], also run when an abandoned generator is collected:
    [GeneratorExit] is raised at the [yield]; the body has no handler for it. *)
Definition gen_close (g : generator) : generator :=
  match g with
  | GenCreated _ _ => GenFinished None
  | GenSuspended _ pending _ => GenFinished (Some (open_cap pending))
  | GenFinished cap => GenFinished cap
  end.

(** The loop run to its end, as [list(...)] drives it. *)
Fixpoint loop_all (interval : Z) (pending : list ndarray) (frame_count : Z)
  : generator * result (list ndarray) :=
  match pending with
  | [] =>
      (GenFinished (Some (cap_release (open_cap []))), Ok [])
  | f :: rest =>
      match py_mod frame_count interval with
      | Raise e => (GenFinished (Some (open_cap rest)), Raise e)
      | Ok m =>
          let '(g, r) := loop_all interval rest (frame_count + 1) in
          if m =? 0 then (g, cons f <$> r) else (g, r)
      end
  end.

(** [list(g)]: the frames yielded until [StopIteration], or the exception. *)
Definition py_list (self : t) (fs : videos) (g : generator)
  : generator * result (list ndarray) :=
  match g with
  | GenCreated video_path interval =>
      let interval :=
        match interval with
        | None => frame_interval (settings self)
        | Some n => n
        end in
      let cap := cv2_VideoCapture fs video_path in
      if negb (cap_isOpened cap) then
        (GenFinished (Some cap),
         Raise (Exn "RuntimeError" ("Cannot open video: " +:+ video_path)))
      else loop_all interval (cap_pending cap) 0
  | GenSuspended interval pending frame_count =>
      loop_all interval pending (frame_count + 1)
  | GenFinished cap => (GenFinished cap, Ok [])
  end.

(** *** _crop_face: [frame[y:y+h, x:x+w]] on [np.int32] coordinates *)
Definition _crop_face (frame : ndarray) (b : bbox) : ndarray :=
  let '(x, y, w, h) := b in
  (fun row => py_slice row x (int32 (x + w))) <$> py_slice frame y (int32 (y + h)).

(** *** detect_emotion *)

(** The body of the [try] block. *)
Definition detect_emotion_body (self : t) (face_img : ndarray) : result pydict :=
  let size := keras_img_size (settings self) in
  img ← cv2_resize (backend self) face_img (size, size);
  img ← cv2_cvtColor_BGR2RGB (backend self) img;
  img ← preprocess_input (backend self) img;
  prediction ← model_predict (backend self) img;
  emotion_idx ← np_argmax prediction;
  emotion ← list_getitem (keras_emotions (settings self)) emotion_idx;
  confidence ← list_getitem prediction emotion_idx;
  Ok (py_dict [("emotion", VStr emotion); ("confidence", VFloat confidence);
               ("scores", VDict (py_dict (zip (keras_emotions (settings self)) prediction)))]).

Definition detect_emotion (self : t) (face_img : ndarray) : result pydict :=
  try_except (detect_emotion_body self face_img)
    (fun e => Ok (py_dict [("emotion", VStr "error"); ("confidence", VFloat 0);
                           ("error", VStr (exn_str e))])).

(** *** detect_faces *)
Definition detect_faces (self : t) (frame : ndarray) : result (list bbox) :=
  gray ← cv2_cvtColor_BGR2GRAY (backend self) frame;
  faces ← detectMultiScale (backend self) gray;
  Ok faces.

(** *** analyze_frame *)

(** The key of [max]: [b[2] * b[3]] on [np.int32] scalars. *)
Definition face_key (b : bbox) : Z :=
  let '(_, _, w, h) := b in int32 (w * h).

Definition no_face_detected (frame_idx : Z) : pydict :=
  py_dict [("frame_index", VInt frame_idx); ("emotion", VStr "no_face_detected");
           ("confidence", VFloat 0)].

Definition analyze_frame_body (self : t) (frame : ndarray) (frame_idx : Z)
  : result pydict :=
  faces ← detect_faces self frame;
  if Z.of_nat (length faces) =? 0 then Ok (no_face_detected frame_idx)
  else
    b ← py_max face_key faces;
    let face := _crop_face frame b in
    if ndarray_size face =? 0 then Ok (no_face_detected frame_idx)
    else
      result ← detect_emotion self face;
      Ok (<["frame_index" := VInt frame_idx]> result).

Definition analyze_frame (self : t) (frame : ndarray) (frame_idx : Z)
  : result pydict :=
  try_except (analyze_frame_body self frame frame_idx)
    (fun e => Ok (py_dict [("frame_index", VInt frame_idx); ("emotion", VStr "error");
                           ("confidence", VFloat 0); ("error", VStr (exn_str e))])).

(** *** analyze_frames *)

(** The [for idx, frame in enumerate(frames)] loop, from index [idx] on, with
    the list [results] built so far. *)
Fixpoint analyze_frames_loop (self : t) (idx : Z) (frames : list ndarray)
    (results : list pydict) : result (list pydict) :=
  match frames with
  | [] => Ok results
  | frame :: rest =>
      result ← analyze_frame self frame idx;
      analyze_frames_loop self (idx + 1) rest (results ++ [result])
  end.

Definition analyze_frames (self : t) (frames : list ndarray)
  : result (list pydict) :=
  analyze_frames_loop self 0 frames [].

(** *** analyze_video *)
Definition analyze_video (self : t) (fs : videos) (video_path : string)
    (interval : option Z) : result (list pydict) :=
  frames ← (py_list self fs (extract_frames self video_path interval)).2;
  analyze_frames self frames.

End EmotionDetector.

(** * backend/main.py *)

Module Main.

Record BackendSettings := {
  upload_dir : string;
  allowed_ext : list string;
  frame_interval : Z
}.

Definition backend_settings : BackendSettings := {|
  upload_dir := "temp_uploads";
  allowed_ext := ["mp4"; "mov"; "avi"; "webm"];
  frame_interval := 10
|}.

(** The ["data"] entry of a job record: [None], the list returned by
    [detector.analyze_video], or the dictionary [{"error": str(e)}]. *)
Inductive job_data :=
| DataNone
| DataResults (results : list pydict)
| DataError (d : gmap string string).

(** A job record [{"status": ..., "data": ...}]. *)
Record job := {
  status : string;
  data : job_data
}.

(** The arguments of a call of [_run] handed to the pool. *)
Definition pool_call : Type := string * Z * string.

Definition call_job_id (t : pool_call) : string := t.2.

(** The module state: the job store and the calls submitted to [_job_pool]
    that no worker has taken yet. *)
Record state := {
  _job_results : gmap string job;
  _job_pool : list pool_call
}.

Definition initial : state := {| _job_results := ∅; _job_pool := [] |}.

(** *** _run; it ends with the store write under [_job_lock]. *)
Definition _run (detector : EmotionDetector.t) (fs : videos)
    (video_path : string) (interval : Z) (job_id : string)
    (store : gmap string job) : gmap string job :=
  let '(results, status) :=
    match EmotionDetector.analyze_video detector fs video_path (Some interval) with
    | Ok results => (DataResults results, "done")
    | Raise e => (DataError (py_dict [("error", exn_str e)]), "error")
    end in
  <[job_id := {| status := status; data := results |}]> store.

(** What the endpoints see of the outside: the uploaded files and werkzeug's
    [secure_filename]. *)
Record world := {
  secure_filename : string -> string;
  is_file : string -> bool;
  fs : videos
}.

(** The JSON payload of a request to [/analyzeVideo]; [frame_interval], when
    given, is an integer, on which [int(...)] is the identity. *)
Record request := {
  is_json : bool;
  video_filename : option string;
  frame_interval_arg : option Z
}.

Inductive response :=
| JsonError (code : Z) (error : string)
| Accepted (code : Z) (job_id : string).

(** *** analyze_video; [job_id] is the value of [uuid.uuid4().hex]. *)
Definition analyze_video (w : world) (job_id : string) (req : request) (s : state)
  : response * state :=
  if negb (is_json req) then (JsonError 400 "json required", s)
  else
    match video_filename req with
    | None | Some "" => (JsonError 400 "missing filename", s)
    | Some video =>
        let path := upload_dir backend_settings +:+ "/" +:+ secure_filename w video in
        if negb (is_file w path) then (JsonError 404 "file not found", s)
        else
          let interval :=
            default (frame_interval backend_settings) (frame_interval_arg req) in
          (Accepted 202 job_id,
           {| _job_results :=
                <[job_id := {| status := "queued"; data := DataNone |}]> (_job_results s);
              _job_pool := _job_pool s ++ [(path, interval, job_id)] |})
    end.

(** One step of the server: a request to [/analyzeVideo], or a worker running
    a submitted call of [_run] to its store write. The identifier of a
    request is fresh, as [uuid4] promises. The store write of a request and
    its [submit] form one step: the call cannot start before it is submitted,
    and no other thread knows the identifier in between. The workers take
    the submitted calls in any order, and the files on disk may differ from
    step to step. *)
Inductive step (detector : EmotionDetector.t) : state -> state -> Prop :=
| step_analyze_video w job_id req s :
    job_id ∉ dom (_job_results s) ->
    step detector s (analyze_video w job_id req s).2
| step_run w video_path interval job_id before after s :
    _job_pool s = before ++ (video_path, interval, job_id) :: after ->
    step detector s
      {| _job_results := _run detector (fs w) video_path interval job_id (_job_results s);
         _job_pool := before ++ after |}.

Inductive reachable (detector : EmotionDetector.t) : state -> Prop :=
| reachable_initial : reachable detector initial
| reachable_step s s' :
    reachable detector s -> step detector s s' -> reachable detector s'.

(** [status] is terminal. *)
Definition terminal (j : job) : Prop := status j = "done" \/ status j = "error".

(** The submitted calls of [_run] for [job_id] that have not run yet. *)
Definition pending_runs (job_id : string) (pool : list pool_call) : list pool_call :=
  filter (fun t => call_job_id t = job_id) pool.

(** The three shapes of a job record. *)
Definition well_formed (j : job) : Prop :=
  (status j = "queued" /\ data j = DataNone)
  \/ (status j = "done" /\ exists results, data j = DataResults results)
  \/ (status j = "error" /\ exists msg, data j = DataError {["error" := msg]}).

(** The record written by [_run]. *)
Definition run_record (r : result (list pydict)) : job :=
  match r with
  | Ok results => {| status := "done"; data := DataResults results |}
  | Raise e => {| status := "error"; data := DataError {["error" := exn_str e]} |}
  end.

(** Every job is well formed, a queued job has exactly one call of [_run]
    waiting, a finished job none, and every waiting call belongs to a job of
    the store. *)
Definition consistent (s : state) : Prop :=
  (forall job_id j,
      _job_results s !! job_id = Some j ->
      well_formed j
      /\ (status j = "queued" -> length (pending_runs job_id (_job_pool s)) = 1%nat)
      /\ (terminal j -> pending_runs job_id (_job_pool s) = []))
  /\ (forall t, t ∈ _job_pool s -> is_Some (_job_results s !! call_job_id t)).

End Main.

(** * Definitions used in the statements *)

(** The frames of [pending] that the sampling loop yields when it starts with
    [frame_count]; [interval] is not zero. *)
Fixpoint sampled (interval frame_count : Z) (pending : list ndarray) : list ndarray :=
  match pending with
  | [] => []
  | f :: rest =>
      if frame_count mod interval =? 0
      then f :: sampled interval (frame_count + 1) rest
      else sampled interval (frame_count + 1) rest
  end.

(** [width * height] of a box. *)
Definition area (b : bbox) : Z :=
  let '(_, _, w, h) := b in w * h.

(** The score vector computed for a face image: the steps of
    [detect_emotion] up to and including the prediction. *)
Definition predict_scores (self : EmotionDetector.t) (face_img : ndarray)
  : result (list Q) :=
  let size := keras_img_size (EmotionDetector.settings self) in
  img ← cv2_resize (EmotionDetector.backend self) face_img (size, size);
  img ← cv2_cvtColor_BGR2RGB (EmotionDetector.backend self) img;
  img ← preprocess_input (EmotionDetector.backend self) img;
  model_predict (EmotionDetector.backend self) img.

(** The dictionary returned for a frame whose analysis raised [msg]. *)
Definition error_result (frame_idx : Z) (msg : string) : pydict :=
  <["frame_index" := VInt frame_idx]>
    (<["emotion" := VStr "error"]>
       (<["confidence" := VFloat 0]> {["error" := VStr msg]})).

(** Python objects that a generator may yield. *)
Inductive pyobj :=
| PyArray (a : ndarray)
| PyInt (n : Z)
| PyTuple (fst snd : pyobj).

(** The objects collected by [list(g)], as Python objects. *)
Definition collected (r : EmotionDetector.generator * result (list ndarray))
  : result (list pyobj) :=
  fmap (M := result) (fmap (M := list) PyArray) r.2.

(** The sampler as the specification words it: the sequence of pairs
    [(frame_index, frame)] with [frame_index mod interval == 0]. *)
Definition sample_spec (video : list ndarray) (interval : Z) : list pyobj :=
  (fun p : Z * ndarray => PyTuple (PyInt p.1) (PyArray p.2)) <$>
  filter (fun p : Z * ndarray => p.1 mod interval = 0)
         (zip (Z.of_nat <$> seq 0 (length video)) video).

(** Stand-ins for the library calls, for evaluating the code on concrete
    inputs: the conversions succeed, the cascade call has the outcome [faces]
    and the model call the outcome [prediction]. *)
Definition fixed_backend (faces : result (list bbox)) (prediction : result (list Q))
  : Backend := {|
  cv2_resize := fun img _ => Ok img;
  cv2_cvtColor_BGR2RGB := fun img => Ok img;
  cv2_cvtColor_BGR2GRAY := fun img => Ok (fmap (M := list) (fmap (M := list) (fun p : pixel => p.1.1)) img);
  preprocess_input := fun img => Ok [];
  model_predict := fun _ => prediction;
  detectMultiScale := fun _ => faces
|}.

Definition fixed_detector (faces : result (list bbox)) (prediction : result (list Q))
  : EmotionDetector.t :=
  {| EmotionDetector.settings := default_settings;
     EmotionDetector.backend := fixed_backend faces prediction |}.

(** An upload directory in which every file exists and decodes to [video]. *)
Definition fixed_world (video : list ndarray) : Main.world := {|
  Main.secure_filename := fun name => name;
  Main.is_file := fun _ => true;
  Main.fs := fun _ => Some video
|}.

Definition fixed_request (name : string) (interval : Z) : Main.request := {|
  Main.is_json := true;
  Main.video_filename := Some name;
  Main.frame_interval_arg := Some interval
|}.

(** A frame of [rows] by [cols] pixels of one colour. *)
Definition plain_frame (rows cols : nat) (c : Z) : ndarray :=
  replicate rows (replicate cols (c, c, c)).

(** Concrete inputs. *)
Definition clip3 : list ndarray :=
  [plain_frame 1 1 0; plain_frame 1 1 1; plain_frame 1 1 2].

Definition clip2 : list ndarray := [plain_frame 1 1 0; plain_frame 1 1 1].

Definition idle_detector : EmotionDetector.t := fixed_detector (Ok []) (Ok []).

Definition three_faces : list bbox :=
  [(0, 0, 10, 10); (20, 0, 20, 20); (50, 0, 25, 10)].

Definition tied_scores : list Q :=
  [0.05; 0.05; 0.1; 0.3; 0.1; 0.3; 0.05; 0.05]%Q.

Definition raw_scores : list Q := [2.5; -1; 0.5; 0; -3; 1.5; 0; 0]%Q.

(** A detector whose label list names "happy" twice. *)
Definition duplicate_labels_detector : EmotionDetector.t :=
  {| EmotionDetector.settings :=
       {| frame_interval := 5; keras_img_size := 224;
          keras_emotions := ["happy"; "happy"] |};
     EmotionDetector.backend := fixed_backend (Ok []) (Ok [0.9; 0.1]%Q) |}.

Definition demo_detector : EmotionDetector.t :=
  fixed_detector (Ok [(0, 0, 1, 1)]) (Ok [0.2; 0.8]%Q).

(** The server after one request for ["clip.mp4"] with interval 1, and after
    the submitted call has run. *)
Definition one_job_queued : Main.state :=
  (Main.analyze_video (fixed_world [plain_frame 2 2 7]) "job-1"
     (fixed_request "clip.mp4" 1) Main.initial).2.

Definition one_job_done (detector : EmotionDetector.t) : Main.state :=
  {| Main._job_results :=
       Main._run detector (Main.fs (fixed_world [plain_frame 2 2 7]))
         "temp_uploads/clip.mp4" 1 "job-1"
         (Main._job_results one_job_queued);
     Main._job_pool := [] ++ [] |}.

(** * The remaining code of backend/main.py and consumers of the generator *)

(** [k + 1] calls of [next] on a generator: the generator and the outcome
    after the last call. *)
Fixpoint nth_next (self : EmotionDetector.t) (fs : videos)
    (g : EmotionDetector.generator) (k : nat)
  : EmotionDetector.generator * EmotionDetector.outcome :=
  match k with
  | O => EmotionDetector.gen_next self fs g
  | S k' => nth_next self fs (EmotionDetector.gen_next self fs g).1 k'
  end.

(** The interval in force in [extract_frames]. *)
Definition effective_interval (self : EmotionDetector.t) (interval : option Z) : Z :=
  match interval with
  | None => frame_interval (EmotionDetector.settings self)
  | Some n => n
  end.

(** [c in s] for a string [c] of one character. *)
Fixpoint str_contains (c : ascii) (s : string) : bool :=
  match s with
  | EmptyString => false
  | String a r => if decide (a = c) then true else str_contains c r
  end.

(** The parts of [s] before and after its last [sep], if it has one. *)
Fixpoint rsplit_last (sep : ascii) (s : string) : option (string * string) :=
  match s with
  | EmptyString => None
  | String a r =>
      match rsplit_last sep r with
      | Some (l, x) => Some (String a l, x)
      | None => if decide (a = sep) then Some (EmptyString, r) else None
      end
  end.

(** [s.rsplit(sep, 1)] for a separator of one character. *)
Definition py_rsplit1 (sep : ascii) (s : string) : list string :=
  match rsplit_last sep s with
  | Some (l, r) => [l; r]
  | None => [s]
  end.

(** [s.lower()]: file names are byte strings; the letters A to Z are mapped
    to a to z and every other byte is kept. *)
Definition ascii_lower (a : ascii) : ascii :=
  let n := nat_of_ascii a in
  if (65 <=? n)%nat && (n <=? 90)%nat then ascii_of_nat (n + 32) else a.

Fixpoint str_lower (s : string) : string :=
  match s with
  | EmptyString => EmptyString
  | String a r => String (ascii_lower a) (str_lower r)
  end.

(** *** _allowed_file *)
Definition _allowed_file (name : string) : result bool :=
  if str_contains "."%char name then
    ext ← list_getitem (py_rsplit1 "."%char name) 1;
    Ok (bool_decide (str_lower ext ∈ Main.allowed_ext Main.backend_settings))
  else Ok false.

(** *** upload_video; [file] is the filename of [request.files["file"]] when
    the request has that part, [uuid4] is [str(uuid.uuid4())], and [save dest]
    is the outcome of [f.save(str(dest))], whose exception the code lets
    through. The second component of the result is the path that was saved. *)
Inductive upload_response :=
| UploadError (code : Z) (error : string)
| UploadCreated (code : Z) (filename : string).

Definition upload_video (w : Main.world) (save : string -> result unit)
    (uuid4 : string) (file : option string)
  : result (upload_response * option string) :=
  match file with
  | None => Ok (UploadError 400 "missing file", None)
  | Some filename =>
      if bool_decide (filename = "") then Ok (UploadError 400 "empty filename", None)
      else
        allowed ← _allowed_file filename;
        if negb allowed then Ok (UploadError 400 "filetype not allowed", None)
        else
          ext ← str_lower <$> list_getitem (py_rsplit1 "."%char filename) 1;
          let name := Main.secure_filename w (uuid4 +:+ "." +:+ ext) in
          let dest := Main.upload_dir Main.backend_settings +:+ "/" +:+ name in
          _ ← save dest;
          Ok (UploadCreated 201 name, Some dest)
  end.

(** *** job_status *)
Inductive status_response :=
| StatusError (code : Z) (error : string)
| StatusInfo (job_id : string) (info : Main.job).

Definition job_status (s : Main.state) (job_id : string) : status_response :=
  match Main._job_results s !! job_id with
  | None => StatusError 404 "job not found"
  | Some info => StatusInfo job_id info
  end.

(** The state after a worker has run the call [(video_path, interval, job_id)]
    of a pool [before ++ call :: after]. *)
Definition after_run (detector : EmotionDetector.t) (w : Main.world)
    (video_path : string) (interval : Z) (job_id : string)
    (before after : list Main.pool_call) (s : Main.state) : Main.state :=
  {| Main._job_results :=
       Main._run detector (Main.fs w) video_path interval job_id (Main._job_results s);
     Main._job_pool := before ++ after |}.

(** The number of rows and columns that a slice [a : a + n] keeps of [len]. *)
Definition slice_len (len a n : Z) : Z := Z.min (a + n) len - Z.min a len.

Example int32_small : int32 400 = 400.
Proof. reflexivity. Qed.

Example py_slice_clip : py_slice [1; 2; 3; 4] 2 9 = [3; 4].
Proof. reflexivity. Qed.

Example py_dict_last_wins :
  py_dict [("a", 1%Q); ("a", 2%Q)] !! "a" = Some 2%Q.
Proof. reflexivity. Qed.

(** * The frame sampler *)

Section Sampler.

Import EmotionDetector.

Lemma loop_all_sampled interval pending frame_count :
  interval <> 0 ->
  loop_all interval pending frame_count =
    (GenFinished (Some (cap_release (open_cap []))),
     Ok (sampled interval frame_count pending)).
Proof.
  intros Hn. revert frame_count.
  induction pending as [|f rest IH]; intros c; simpl; [done|].
  unfold py_mod. destruct (Z.eqb_spec interval 0) as [|_]; [done|].
  rewrite IH. by destruct (c mod interval =? 0).
Qed.

Lemma neg_mod_at_multiple c n :
  1 <= n -> c mod n = 0 -> (- c) mod n = 0 /\ (- (c + 1)) mod n = n - 1.
Proof.
  intros Hn Hc. pose proof (Z.div_mod c n ltac:(lia)) as Hdm. rewrite Hc in Hdm.
  split; symmetry.
  - apply (Z.mod_unique _ _ (- (c / n))); lia.
  - apply (Z.mod_unique _ _ (- (c / n) - 1)); lia.
Qed.

Lemma neg_mod_off_multiple c n :
  1 <= n -> c mod n <> 0 ->
  0 < (- c) mod n /\ (- (c + 1)) mod n = (- c) mod n - 1.
Proof.
  intros Hn Hc. pose proof (Z.div_mod c n ltac:(lia)) as Hdm.
  pose proof (Z.mod_pos_bound c n ltac:(lia)) as Hb.
  assert ((- c) mod n = n - c mod n) as ->.
  { symmetry. apply (Z.mod_unique _ _ (- (c / n) - 1)); lia. }
  split; [lia|]. symmetry.
  apply (Z.mod_unique _ _ (- (c / n) - 1)); lia.
Qed.

Lemma sampled_stride interval pending frame_count :
  1 <= interval ->
  let o := (- frame_count) mod interval in
  Z.of_nat (length (sampled interval frame_count pending)) =
    (Z.of_nat (length pending) - o + interval - 1) / interval
  /\ forall k : nat,
      sampled interval frame_count pending !! k =
      pending !! Z.to_nat (o + Z.of_nat k * interval).
Proof.
  intros Hn. revert frame_count.
  induction pending as [|f rest IH]; intros c o.
  - split.
    + simpl. subst o. symmetry. apply Z.div_small.
      pose proof (Z.mod_pos_bound (- c) interval). lia.
    + intros k. by rewrite !lookup_nil.
  - destruct (IH (c + 1)) as [IHlen IHnth]. clear IH.
    set (o' := (- (c + 1)) mod interval) in *.
    simpl sampled. destruct (Z.eqb_spec (c mod interval) 0) as [Hz|Hz].
    + destruct (neg_mod_at_multiple c interval Hn Hz) as [Ho Ho'].
      fold o in Ho. fold o' in Ho'.
      split.
      * rewrite !length_cons, !Nat2Z.inj_succ, IHlen, Ho, Ho'.
        replace (Z.succ (Z.of_nat (length rest)) - 0 + interval - 1)
          with (Z.of_nat (length rest) - (interval - 1) + interval - 1 + 1 * interval) by lia.
        rewrite Z.div_add by lia. lia.
      * intros [|k].
        { rewrite Ho. reflexivity. }
        rewrite lookup_cons, IHnth, Ho, Ho'.
        replace (Z.to_nat (0 + Z.of_nat (S k) * interval))
          with (S (Z.to_nat (interval - 1 + Z.of_nat k * interval))) by nia.
        reflexivity.
    + destruct (neg_mod_off_multiple c interval Hn Hz) as [Ho Ho'].
      fold o in Ho, Ho'. fold o' in Ho'.
      split.
      * rewrite length_cons, Nat2Z.inj_succ, IHlen, Ho'. f_equal. lia.
      * intros k. rewrite IHnth, Ho'.
        replace (Z.to_nat (o + Z.of_nat k * interval))
          with (S (Z.to_nat (o - 1 + Z.of_nat k * interval))) by nia.
        reflexivity.
Qed.

(** [list(g)] calls [next(g)] until [StopIteration]. *)
Lemma loop_all_next self fs interval pending frame_count :
  loop_all interval pending frame_count =
  match loop_next interval pending frame_count with
  | (g', Yield f) => let '(g'', r) := py_list self fs g' in (g'', cons f <$> r)
  | (g', StopIteration) => (g', Ok [])
  | (g', Raised e) => (g', Raise e)
  end.
Proof.
  revert frame_count. induction pending as [|f rest IH]; intros c; simpl; [done|].
  destruct (py_mod c interval) as [m|e]; [|done].
  destruct (m =? 0).
  - done.
  - rewrite <- IH. by destruct (loop_all interval rest (c + 1)) as [g [l|e]].
Qed.

Lemma py_list_next self fs g :
  py_list self fs g =
  match gen_next self fs g with
  | (g', Yield f) => let '(g'', r) := py_list self fs g' in (g'', cons f <$> r)
  | (g', StopIteration) => (g', Ok [])
  | (g', Raised e) => (g', Raise e)
  end.
Proof.
  destruct g as [video_path interval|interval pending c|cap]; simpl; try done.
  - destruct (negb _); [done|]. apply loop_all_next.
  - apply loop_all_next.
Qed.

(** C2, as the code has it: for an interval of at least 1 on a video that
    opens, [list(extract_frames(...))] returns the frames at the original
    indices 0, N, 2N, ... in ascending order, ceil(F/N) of them, and leaves
    the capture released. The generator yields the bare frames: no index is
    paired with them. *)
Theorem extract_frames_every_nth
    (self : t) (fs : videos) (video_path : string) (interval : Z)
    (video : list ndarray) :
  1 <= interval ->
  fs video_path = Some video ->
  exists frames : list ndarray,
    py_list self fs (extract_frames self video_path (Some interval)) =
      (GenFinished (Some (cap_release (open_cap []))), Ok frames)
    /\ Z.of_nat (length frames) =
         (Z.of_nat (length video) + interval - 1) / interval
    /\ forall k : nat, frames !! k = video !! (k * Z.to_nat interval)%nat.
Proof.
  intros Hn Hv. exists (sampled interval 0 video).
  destruct (sampled_stride interval video 0 Hn) as [Hlen Hnth].
  rewrite Z.opp_0, Z.mod_0_l in Hlen, Hnth by lia.
  split; [|split].
  - unfold extract_frames, py_list, cv2_VideoCapture. rewrite Hv. simpl.
    apply loop_all_sampled. lia.
  - rewrite Hlen. f_equal. lia.
  - intros k. rewrite Hnth. f_equal. nia.
Qed.

Lemma extract_frames_every_nth_witness :
  exists frames : list ndarray,
    py_list idle_detector (fun _ => Some clip3)
      (extract_frames idle_detector "clip.mp4" (Some 2)) =
      (GenFinished (Some (cap_release (open_cap []))), Ok frames)
    /\ Z.of_nat (length frames) = (Z.of_nat (length clip3) + 2 - 1) / 2
    /\ forall k : nat, frames !! k = clip3 !! (k * Z.to_nat 2)%nat.
Proof.
  apply (extract_frames_every_nth idle_detector (fun _ => Some clip3) "clip.mp4" 2 clip3).
  - lia.
  - reflexivity.
Defined.

(** C2 as stated fails: on a video of three frames sampled with interval 2
    the generator yields the two frames themselves, not pairs of an index and
    a frame. *)
Lemma extract_frames_yields_bare_frames :
  collected (py_list idle_detector (fun _ => Some clip3)
               (extract_frames idle_detector "clip.mp4" (Some 2)))
    = Ok [PyArray (plain_frame 1 1 0); PyArray (plain_frame 1 1 2)]
  /\ sample_spec clip3 2
    = [PyTuple (PyInt 0) (PyArray (plain_frame 1 1 0));
       PyTuple (PyInt 2) (PyArray (plain_frame 1 1 2))]
  /\ collected (py_list idle_detector (fun _ => Some clip3)
                  (extract_frames idle_detector "clip.mp4" (Some 2)))
    <> Ok (sample_spec clip3 2).
Proof.
  repeat split; [vm_compute; reflexivity..|]. vm_compute. discriminate.
Qed.

End Sampler.

(** * Python helpers *)

Section PyMax.

Context {A : Type} (key : A -> Z).

(** [max] returns the first element with the largest key: the elements
    before it have a smaller key, the elements after it none larger. *)
Lemma py_max_from_first best l :
  exists pre post,
    best :: l = pre ++ py_max_from key best l :: post
    /\ (forall x, x ∈ pre -> key x < key (py_max_from key best l))
    /\ (forall x, x ∈ post -> key x <= key (py_max_from key best l)).
Proof.
  revert best. induction l as [|x r IH]; intros best; simpl.
  - exists [], []. split; [done|]. split; intros x Hx; by apply elem_of_nil in Hx.
  - destruct (Z.ltb_spec (key best) (key x)) as [Hlt|Hge].
    + destruct (IH x) as (pre & post & Heq & Hpre & Hpost).
      exists (best :: pre), post. split; [by rewrite Heq|]. split; [|done].
      intros y [->|Hy]%elem_of_cons; [|by apply Hpre].
      destruct pre as [|p pre].
      * injection Heq as <- _. done.
      * injection Heq as <- _. specialize (Hpre x ltac:(left)). lia.
    + destruct (IH best) as (pre & post & Heq & Hpre & Hpost).
      destruct pre as [|p pre].
      * injection Heq as Hb Hr. exists [], (x :: r). rewrite <- Hb.
        split; [done|]. split; [intros y Hy; by apply elem_of_nil in Hy|].
        intros y [->|Hy]%elem_of_cons; [lia|]. rewrite Hb. apply Hpost.
        by rewrite <- Hr.
      * injection Heq as <- Hr. exists (best :: x :: pre), post.
        split; [simpl; by rewrite <- Hr|]. split; [|done].
        intros y [->|[->|Hy]%elem_of_cons]%elem_of_cons.
        -- apply Hpre. left.
        -- specialize (Hpre best ltac:(left)). lia.
        -- apply Hpre. by right.
Qed.

Lemma py_max_first l :
  l <> [] ->
  exists m pre post,
    py_max key l = Ok m
    /\ l = pre ++ m :: post
    /\ (forall x, x ∈ pre -> key x < key m)
    /\ (forall x, x ∈ post -> key x <= key m).
Proof.
  destruct l as [|x r]; [done|]. intros _.
  destruct (py_max_from_first x r) as (pre & post & H).
  exists (py_max_from key x r), pre, post. by split.
Qed.

End PyMax.

Lemma int32_id z : - 2 ^ 31 <= z < 2 ^ 31 -> int32 z = z.
Proof. intros Hz. unfold int32. rewrite Z.mod_small; lia. Qed.

Section PyDict.

Context {V : Type}.
Implicit Types (d : gmap string V) (pairs : list (string * V)).

Lemma store_lookup_other d pairs k :
  k ∉ pairs.*1 -> store_pairs d pairs !! k = d !! k.
Proof.
  unfold store_pairs.
  revert d. induction pairs as [|[k' v'] pairs IH]; intros d Hk; simpl in *; [done|].
  apply not_elem_of_cons in Hk as [Hne Hk].
  rewrite IH by done. by rewrite lookup_insert_ne.
Qed.

Lemma store_lookup d pairs k v :
  NoDup pairs.*1 -> (k, v) ∈ pairs -> store_pairs d pairs !! k = Some v.
Proof.
  revert d. induction pairs as [|[k' v'] pairs IH]; intros d Hnd Hin.
  - by apply elem_of_nil in Hin.
  - simpl in Hnd. apply NoDup_cons in Hnd as [Hk' Hnd].
    apply elem_of_cons in Hin as [[= -> ->]|Hin].
    + change (store_pairs (<[k' := v']> d) pairs !! k' = Some v').
      rewrite store_lookup_other by done. apply lookup_insert_eq.
    + by apply (IH (<[k' := v']> d)).
Qed.

Lemma store_dom d pairs :
  dom (store_pairs d pairs) = dom d ∪ list_to_set pairs.*1.
Proof.
  revert d. induction pairs as [|[k' v'] pairs IH]; intros d.
  - simpl. set_solver.
  - change (dom (store_pairs (<[k' := v']> d) pairs) =
            dom d ∪ list_to_set ((k', v') :: pairs).*1).
    rewrite IH, dom_insert_L. simpl. set_solver.
Qed.

Lemma py_dict_lookup pairs k v :
  NoDup pairs.*1 -> (k, v) ∈ pairs -> py_dict pairs !! k = Some v.
Proof. apply store_lookup. Qed.

Lemma py_dict_dom pairs : dom (py_dict pairs) = list_to_set pairs.*1.
Proof. unfold py_dict. rewrite store_dom, dom_empty_L. set_solver. Qed.

End PyDict.

Section ArgMax.

(** Invariant of the scan of [np.argmax]: [best] is the first maximum of the
    part [pre] already scanned. *)
Lemma argmax_from_first (pre l : list Q) (best : Q) (besti : nat) :
  pre !! besti = Some best ->
  (forall j s, pre !! j = Some s -> (s <= best)%Q) ->
  (forall j s, (j < besti)%nat -> pre !! j = Some s -> (s < best)%Q) ->
  exists c,
    (pre ++ l) !! argmax_from best besti (length pre) l = Some c
    /\ (forall j s, (pre ++ l) !! j = Some s -> (s <= c)%Q)
    /\ (forall j s, (j < argmax_from best besti (length pre) l)%nat ->
                    (pre ++ l) !! j = Some s -> (s < c)%Q).
Proof.
  revert pre best besti. induction l as [|x r IH]; intros pre best besti Hb Hle Hlt.
  - simpl. rewrite app_nil_r. eauto.
  - simpl. replace (pre ++ x :: r) with ((pre ++ [x]) ++ r) by by rewrite <- app_assoc.
    replace (S (length pre)) with (length (pre ++ [x]))
      by (rewrite length_app; simpl; lia).
    pose proof (lookup_lt_Some _ _ _ Hb) as Hbi.
    destruct (Qle_bool x best) eqn:E.
    + apply Qle_bool_iff in E. apply IH.
      * by rewrite lookup_app_l.
      * intros j s [Hj|[_ Hj]]%lookup_app_Some; [by eapply Hle|].
        apply list_lookup_singleton_Some in Hj as [_ <-]. done.
      * intros j s Hj Hs. rewrite lookup_app_l in Hs by lia. by eapply Hlt.
    + assert (best < x)%Q as Hx.
      { apply Qnot_le_lt. intros H. apply Qle_bool_iff in H. congruence. }
      apply IH.
      * rewrite lookup_app_r by lia. by rewrite Nat.sub_diag.
      * intros j s [Hj|[_ Hj]]%lookup_app_Some.
        -- apply Qlt_le_weak. eapply Qle_lt_trans; [by eapply Hle|done].
        -- apply list_lookup_singleton_Some in Hj as [_ <-]. apply Qle_refl.
      * intros j s Hj Hs. rewrite lookup_app_l in Hs by lia.
        eapply Qle_lt_trans; [by eapply Hle|done].
Qed.

Lemma np_argmax_first (prediction : list Q) :
  prediction <> [] ->
  exists idx c,
    np_argmax prediction = Ok idx
    /\ prediction !! idx = Some c
    /\ (forall j s, prediction !! j = Some s -> (s <= c)%Q)
    /\ (forall j s, (j < idx)%nat -> prediction !! j = Some s -> (s < c)%Q).
Proof.
  destruct prediction as [|x r]; [done|]. intros _.
  destruct (argmax_from_first [x] r x 0) as (c & H); [done| | |].
  - intros j s Hj. apply list_lookup_singleton_Some in Hj as [_ <-]. apply Qle_refl.
  - intros j s Hj. lia.
  - exists (argmax_from x 0 1 r), c. by split.
Qed.

End ArgMax.

(** * The detector *)

Section Detector.

Import EmotionDetector.

Variable self : t.

Lemma detect_emotion_body_scores face_img :
  detect_emotion_body self face_img =
  prediction ← predict_scores self face_img;
  emotion_idx ← np_argmax prediction;
  emotion ← list_getitem (keras_emotions (settings self)) emotion_idx;
  confidence ← list_getitem prediction emotion_idx;
  Ok (py_dict [("emotion", VStr emotion); ("confidence", VFloat confidence);
               ("scores", VDict (py_dict (zip (keras_emotions (settings self)) prediction)))]).
Proof.
  unfold detect_emotion_body, predict_scores.
  destruct (cv2_resize _ _ _) as [img1|e]; simpl; [|done].
  destruct (cv2_cvtColor_BGR2RGB _ _) as [img2|e]; simpl; [|done].
  destruct (preprocess_input _ _) as [img3|e]; simpl; done.
Qed.

(** Every prediction comes out of [model.predict]. *)
Lemma predict_scores_model face_img prediction :
  predict_scores self face_img = Ok prediction ->
  exists x, model_predict (backend self) x = Ok prediction.
Proof.
  unfold predict_scores.
  destruct (cv2_resize _ _ _) as [img1|e]; simpl; [|done].
  destruct (cv2_cvtColor_BGR2RGB _ _) as [img2|e]; simpl; [|done].
  destruct (preprocess_input _ _) as [img3|e]; simpl; [|done]. eauto.
Qed.

(** The two outcomes of [detect_emotion]. *)
Lemma detect_emotion_cases face_img :
  (exists e,
      detect_emotion_body self face_img = Raise e
      /\ detect_emotion self face_img =
           Ok (py_dict [("emotion", VStr "error"); ("confidence", VFloat 0);
                        ("error", VStr (exn_str e))]))
  \/ (exists prediction idx emotion confidence,
         predict_scores self face_img = Ok prediction
         /\ np_argmax prediction = Ok idx
         /\ keras_emotions (settings self) !! idx = Some emotion
         /\ prediction !! idx = Some confidence
         /\ detect_emotion self face_img =
              Ok (py_dict [("emotion", VStr emotion); ("confidence", VFloat confidence);
                           ("scores", VDict (py_dict (zip (keras_emotions (settings self))
                                                          prediction)))])).
Proof.
  unfold detect_emotion. rewrite detect_emotion_body_scores.
  destruct (predict_scores self face_img) as [prediction|e] eqn:Es; simpl;
    [|left; eauto].
  destruct (np_argmax prediction) as [idx|e] eqn:Ea; simpl; [|left; eauto].
  unfold list_getitem.
  destruct (keras_emotions (settings self) !! idx) as [emotion|] eqn:El; simpl;
    [|left; eauto].
  destruct (prediction !! idx) as [confidence|] eqn:Ep; simpl; [|left; eauto].
  right. exists prediction, idx, emotion, confidence. repeat split; done.
Qed.

Lemma detect_emotion_returns face_img :
  exists d, detect_emotion self face_img = Ok d.
Proof.
  destruct (detect_emotion_cases face_img) as [(e & _ & H)|(p & i & em & c & _ & _ & _ & _ & H)];
    eauto.
Qed.

(** The outcomes of [analyze_frame]. *)
Lemma analyze_frame_cases frame frame_idx :
  analyze_frame self frame frame_idx = Ok (no_face_detected frame_idx)
  \/ (exists e,
         analyze_frame_body self frame frame_idx = Raise e
         /\ analyze_frame self frame frame_idx = Ok (error_result frame_idx (exn_str e)))
  \/ (exists faces b d,
         detect_faces self frame = Ok faces
         /\ py_max face_key faces = Ok b
         /\ ndarray_size (_crop_face frame b) <> 0
         /\ detect_emotion self (_crop_face frame b) = Ok d
         /\ analyze_frame self frame frame_idx = Ok (<["frame_index" := VInt frame_idx]> d)).
Proof.
  unfold analyze_frame, analyze_frame_body.
  destruct (detect_faces self frame) as [faces|e] eqn:Ef; simpl;
    [|right; left; exists e; split; [done|]; f_equal; apply map_eq; intros k;
      unfold error_result, py_dict; simpl; done].
  destruct (Z.of_nat (length faces) =? 0); [by left|].
  destruct (py_max face_key faces) as [b|e] eqn:Em; simpl;
    [|right; left; exists e; split; [done|]; done].
  destruct (Z.eqb_spec (ndarray_size (_crop_face frame b)) 0) as [|Hsz]; [by left|].
  destruct (detect_emotion_returns (_crop_face frame b)) as [d Hd].
  rewrite Hd. simpl. right. right. exists faces, b, d. done.
Qed.

Lemma analyze_frame_returns frame frame_idx :
  exists d, analyze_frame self frame frame_idx = Ok d
            /\ d !! "frame_index" = Some (VInt frame_idx).
Proof.
  destruct (analyze_frame_cases frame frame_idx)
    as [H|[(e & _ & H)|(faces & b & d & _ & _ & _ & _ & H)]];
    rewrite H; eexists; (split; [done|]).
  - done.
  - done.
  - apply lookup_insert_eq.
Qed.

End Detector.

Section FrameAnalysis.

Import EmotionDetector.

Lemma face_key_area (faces : list bbox) b :
  Forall (fun b => - 2 ^ 31 <= area b < 2 ^ 31) faces ->
  b ∈ faces -> face_key b = area b.
Proof.
  intros Hall Hb. rewrite Forall_forall in Hall. specialize (Hall b Hb).
  destruct b as [[[x y] w] h]. by apply int32_id.
Qed.

(** C3: when the face locator returns at least one box (the areas being
    [np.int32] values), [analyze_frame] classifies the crop of the box of
    largest width * height, and among several boxes of that area the first one
    in the locator's order: every earlier box is strictly smaller, no later
    box is larger. *)
Theorem analyze_frame_largest_face
    (self : t) (frame : ndarray) (frame_idx : Z) (faces : list bbox) :
  detect_faces self frame = Ok faces ->
  faces <> [] ->
  Forall (fun b => - 2 ^ 31 <= area b < 2 ^ 31) faces ->
  exists b pre post,
    faces = pre ++ b :: post
    /\ (forall b', b' ∈ pre -> area b' < area b)
    /\ (forall b', b' ∈ post -> area b' <= area b)
    /\ analyze_frame self frame frame_idx =
       if ndarray_size (_crop_face frame b) =? 0
       then Ok (no_face_detected frame_idx)
       else d ← detect_emotion self (_crop_face frame b);
            Ok (<["frame_index" := VInt frame_idx]> d).
Proof.
  intros Hf Hne Hall.
  destruct (py_max_first face_key faces Hne) as (b & pre & post & Hmax & Heq & Hpre & Hpost).
  assert (forall b', b' ∈ faces -> face_key b' = area b') as Hkey
    by (intros; by eapply face_key_area).
  assert (b ∈ faces) as Hb by (rewrite Heq; set_solver).
  exists b, pre, post. split; [done|]. split; [|split].
  - intros b' Hb'. rewrite <- !Hkey; [by apply Hpre|done|rewrite Heq; set_solver].
  - intros b' Hb'. rewrite <- !Hkey; [by apply Hpost|done|rewrite Heq; set_solver].
  - unfold analyze_frame, analyze_frame_body. rewrite Hf. simpl.
    destruct (Z.eqb_spec (Z.of_nat (length faces)) 0) as [Hl|_].
    { destruct faces; [done|]. simpl in Hl. lia. }
    rewrite Hmax. simpl.
    destruct (ndarray_size (_crop_face frame b) =? 0); [done|].
    destruct (detect_emotion_returns self (_crop_face frame b)) as [d ->]. done.
Qed.

(** The areas [100, 400, 250]: the box of area 400 is selected. *)
Example py_max_areas_100_400_250 :
  area <$> three_faces = [100; 400; 250]
  /\ py_max face_key three_faces = Ok (20, 0, 20, 20).
Proof. split; reflexivity. Qed.

Lemma analyze_frame_largest_face_witness :
  exists b pre post,
    three_faces = pre ++ b :: post
    /\ (forall b', b' ∈ pre -> area b' < area b)
    /\ (forall b', b' ∈ post -> area b' <= area b)
    /\ analyze_frame (fixed_detector (Ok three_faces) (Ok tied_scores))
         (plain_frame 30 80 7) 0 =
       if ndarray_size (_crop_face (plain_frame 30 80 7) b) =? 0
       then Ok (no_face_detected 0)
       else d ← detect_emotion (fixed_detector (Ok three_faces) (Ok tied_scores))
                  (_crop_face (plain_frame 30 80 7) b);
            Ok (<["frame_index" := VInt 0]> d).
Proof.
  apply (analyze_frame_largest_face
           (fixed_detector (Ok three_faces) (Ok tied_scores))
           (plain_frame 30 80 7) 0 three_faces).
  - reflexivity.
  - discriminate.
  - repeat constructor; simpl; lia.
Defined.

Lemma no_face_detected_lookup frame_idx :
  no_face_detected frame_idx !! "frame_index" = Some (VInt frame_idx)
  /\ no_face_detected frame_idx !! "emotion" = Some (VStr "no_face_detected")
  /\ no_face_detected frame_idx !! "confidence" = Some (VFloat 0)
  /\ dom (no_face_detected frame_idx) = {["frame_index"; "emotion"; "confidence"]}.
Proof.
  repeat split; done.
Qed.

(** C4: for a frame with no detected face, and for a frame whose selected
    crop is empty, [analyze_frame] returns the dictionary with exactly the
    keys frame_index, emotion = "no_face_detected" and confidence = 0.0;
    it has no scores and no error entry. *)
Theorem analyze_frame_no_face (self : t) (frame : ndarray) (frame_idx : Z) :
  detect_faces self frame = Ok []
  \/ (exists faces b,
        detect_faces self frame = Ok faces
        /\ py_max face_key faces = Ok b
        /\ ndarray_size (_crop_face frame b) = 0) ->
  exists d : pydict,
    analyze_frame self frame frame_idx = Ok d
    /\ d !! "frame_index" = Some (VInt frame_idx)
    /\ d !! "emotion" = Some (VStr "no_face_detected")
    /\ d !! "confidence" = Some (VFloat 0)
    /\ dom d = {["frame_index"; "emotion"; "confidence"]}
    /\ d !! "scores" = None
    /\ d !! "error" = None.
Proof.
  intros H. exists (no_face_detected frame_idx).
  destruct (no_face_detected_lookup frame_idx) as (H1 & H2 & H3 & H4).
  split; [|by repeat split].
  unfold analyze_frame, analyze_frame_body.
  destruct H as [->|(faces & b & -> & Hmax & Hsz)]; simpl; [done|].
  destruct (Z.of_nat (length faces) =? 0); [done|].
  rewrite Hmax. simpl. by rewrite Hsz.
Qed.

Lemma analyze_frame_no_face_witness :
  exists d : pydict,
    analyze_frame (fixed_detector (Ok [(5, 5, 3, 3)]) (Ok tied_scores))
      (plain_frame 2 2 7) 4 = Ok d
    /\ d !! "frame_index" = Some (VInt 4)
    /\ d !! "emotion" = Some (VStr "no_face_detected")
    /\ d !! "confidence" = Some (VFloat 0)
    /\ dom d = {["frame_index"; "emotion"; "confidence"]}
    /\ d !! "scores" = None
    /\ d !! "error" = None.
Proof.
  apply (analyze_frame_no_face (fixed_detector (Ok [(5, 5, 3, 3)]) (Ok tied_scores))
           (plain_frame 2 2 7) 4).
  right. exists [(5, 5, 3, 3)], (5, 5, 3, 3). repeat split; reflexivity.
Defined.

End FrameAnalysis.

Section Classification.

Import EmotionDetector.

(** C1, as the code has it: when classification of a face image succeeds,
    with a model that returns a score for every configured label and labels
    that are pairwise distinct, [detect_emotion] returns as emotion the label of the maximum
    score (the first one in the configured order among equal maxima), as
    confidence that score, and as scores the mapping of every configured
    label to its score: confidence is scores[emotion] and the keys of scores
    are exactly the labels. *)
Theorem detect_emotion_argmax
    (self : t) (face_img : ndarray) (prediction : list Q) (d : pydict) :
  predict_scores self face_img = Ok prediction ->
  detect_emotion_body self face_img = Ok d ->
  (length (keras_emotions (settings self)) <= length prediction)%nat ->
  NoDup (keras_emotions (settings self)) ->
  exists (idx : nat) (emotion : string) (confidence : Q) (scores : gmap string Q),
    detect_emotion self face_img = Ok d
    /\ d !! "emotion" = Some (VStr emotion)
    /\ d !! "confidence" = Some (VFloat confidence)
    /\ d !! "scores" = Some (VDict scores)
    /\ keras_emotions (settings self) !! idx = Some emotion
    /\ prediction !! idx = Some confidence
    /\ (forall j s, prediction !! j = Some s -> (s <= confidence)%Q)
    /\ (forall j s, (j < idx)%nat -> prediction !! j = Some s -> (s < confidence)%Q)
    /\ scores !! emotion = Some confidence
    /\ dom scores = list_to_set (keras_emotions (settings self))
    /\ (forall j label, keras_emotions (settings self) !! j = Some label ->
                        scores !! label = prediction !! j).
Proof.
  intros Hs Hbody Hlen Hnd.
  assert (detect_emotion self face_img = Ok d) as Hd
    by (unfold detect_emotion; by rewrite Hbody).
  rewrite detect_emotion_body_scores, Hs in Hbody. simpl in Hbody.
  destruct (np_argmax prediction) as [idx|e] eqn:Ha; simpl in Hbody; [|done].
  unfold list_getitem in Hbody.
  set (labels := keras_emotions (settings self)) in *.
  destruct (labels !! idx) as [emotion|] eqn:He; simpl in Hbody; [|done].
  destruct (prediction !! idx) as [c|] eqn:Hc; simpl in Hbody; [|done].
  injection Hbody as <-.
  assert (prediction <> []) as Hne by (intros ->; done).
  destruct (np_argmax_first prediction Hne) as (idx' & c' & Ha' & Hc' & Hmax & Hfirst).
  assert (idx' = idx) as -> by congruence.
  assert (c' = c) as -> by congruence.
  assert ((zip labels prediction).*1 = labels) as Hfst by (by apply fst_zip).
  assert (forall j label s, labels !! j = Some label -> prediction !! j = Some s ->
                            py_dict (zip labels prediction) !! label = Some s) as Hlook.
  { intros j label s Hl Hp. apply py_dict_lookup; [by rewrite Hfst|].
    by eapply (elem_of_lookup_zip_with_2 pair). }
  exists idx, emotion, c, (py_dict (zip labels prediction)).
  repeat split; try done.
  - by eapply Hlook.
  - by rewrite py_dict_dom, Hfst.
  - intros j label Hl.
    assert (is_Some (prediction !! j)) as [s Hp].
    { apply lookup_lt_is_Some. apply lookup_lt_Some in Hl. lia. }
    rewrite Hp. by eapply Hlook.
Qed.

Lemma detect_emotion_argmax_witness :
  exists (idx : nat) (emotion : string) (confidence : Q) (scores : gmap string Q),
    detect_emotion (fixed_detector (Ok []) (Ok tied_scores)) (plain_frame 2 2 7) =
      Ok (py_dict [("emotion", VStr "happy"); ("confidence", VFloat 0.3);
                   ("scores", VDict (py_dict (zip (keras_emotions default_settings)
                                                  tied_scores)))])
    /\ py_dict [("emotion", VStr "happy"); ("confidence", VFloat 0.3);
                ("scores", VDict (py_dict (zip (keras_emotions default_settings)
                                               tied_scores)))] !! "emotion"
       = Some (VStr emotion)
    /\ py_dict [("emotion", VStr "happy"); ("confidence", VFloat 0.3);
                ("scores", VDict (py_dict (zip (keras_emotions default_settings)
                                               tied_scores)))] !! "confidence"
       = Some (VFloat confidence)
    /\ py_dict [("emotion", VStr "happy"); ("confidence", VFloat 0.3);
                ("scores", VDict (py_dict (zip (keras_emotions default_settings)
                                               tied_scores)))] !! "scores"
       = Some (VDict scores)
    /\ keras_emotions default_settings !! idx = Some emotion
    /\ tied_scores !! idx = Some confidence
    /\ (forall j s, tied_scores !! j = Some s -> (s <= confidence)%Q)
    /\ (forall j s, (j < idx)%nat -> tied_scores !! j = Some s -> (s < confidence)%Q)
    /\ scores !! emotion = Some confidence
    /\ dom scores = list_to_set (keras_emotions default_settings)
    /\ (forall j label, keras_emotions default_settings !! j = Some label ->
                        scores !! label = tied_scores !! j).
Proof.
  apply (detect_emotion_argmax (fixed_detector (Ok []) (Ok tied_scores))
           (plain_frame 2 2 7) tied_scores).
  - reflexivity.
  - reflexivity.
  - simpl. lia.
  - apply (bool_decide_unpack _). vm_compute. reflexivity.
Defined.

(** C1 as stated fails. With the eight default labels and a model that
    returns two scores, classification succeeds and the keys of scores are
    the first two labels only. With the label "happy" configured twice, the
    confidence is the score at the first position and scores["happy"] the
    score at the second. *)
Lemma detect_emotion_scores_miss_labels :
  (exists (d : pydict) (scores : gmap string Q),
      detect_emotion_body demo_detector (plain_frame 2 2 7) = Ok d
      /\ detect_emotion demo_detector (plain_frame 2 2 7) = Ok d
      /\ d !! "emotion" = Some (VStr "disgust")
      /\ d !! "scores" = Some (VDict scores)
      /\ dom scores = {["angry"; "disgust"]}
      /\ dom scores <> list_to_set (keras_emotions (settings demo_detector)))
  /\ (exists (d : pydict) (scores : gmap string Q),
        detect_emotion_body duplicate_labels_detector (plain_frame 2 2 7) = Ok d
        /\ detect_emotion duplicate_labels_detector (plain_frame 2 2 7) = Ok d
        /\ d !! "emotion" = Some (VStr "happy")
        /\ d !! "confidence" = Some (VFloat 0.9)
        /\ d !! "scores" = Some (VDict scores)
        /\ scores !! "happy" = Some 0.1%Q
        /\ ~ (0.9 == 0.1)%Q).
Proof.
  split.
  - eexists _, _. split; [reflexivity|]. split; [reflexivity|].
    split; [reflexivity|]. split; [reflexivity|]. split; [reflexivity|].
    intros H.
    apply (f_equal (fun s : gset string => bool_decide ("fear" ∈ s))) in H.
    vm_compute in H. discriminate.
  - eexists _, _. split; [reflexivity|]. split; [reflexivity|].
    split; [reflexivity|]. split; [reflexivity|]. split; [reflexivity|].
    split; [reflexivity|]. intros H. vm_compute in H. discriminate.
Qed.

(** Two equal maximal scores: the first label in the configured order wins. *)
Example detect_emotion_tie :
  detect_emotion (fixed_detector (Ok []) (Ok tied_scores)) (plain_frame 2 2 7)
    ≫= (fun d => Ok (d !! "emotion"))
  = Ok (Some (VStr "happy")).
Proof. reflexivity. Qed.

End Classification.

Section Batch.

Import EmotionDetector.

Variable self : t.

(** The loop appends one result per frame, the result of [analyze_frame] on
    that frame and its index. *)
Lemma analyze_frames_loop_spec frames idx results :
  exists out : list pydict,
    analyze_frames_loop self idx frames results = Ok (results ++ out)
    /\ length out = length frames
    /\ forall (i : nat) frame,
        frames !! i = Some frame ->
        exists d, out !! i = Some d
                  /\ analyze_frame self frame (idx + Z.of_nat i) = Ok d.
Proof.
  revert idx results. induction frames as [|frame rest IH]; intros idx results.
  - exists []. simpl. rewrite app_nil_r. repeat split. intros i f Hi.
    by rewrite lookup_nil in Hi.
  - simpl. destruct (analyze_frame_returns self frame idx) as (d & Hd & _).
    rewrite Hd. simpl.
    destruct (IH (idx + 1) (results ++ [d])) as (out & Hout & Hlen & Hnth).
    exists (d :: out). rewrite Hout, <- app_assoc. simpl.
    split; [done|]. split; [by rewrite Hlen|].
    intros [|i] f Hi; simpl in *.
    + injection Hi as <-. exists d. by rewrite Z.add_0_r.
    + destruct (Hnth i f Hi) as (d' & Hd' & Ha). exists d'. split; [done|].
      rewrite <- Ha. f_equal. lia.
Qed.

Lemma analyze_frames_in_order_aux frames :
  exists results : list pydict,
    analyze_frames self frames = Ok results
    /\ length results = length frames
    /\ forall (i : nat) (frame : ndarray),
        frames !! i = Some frame ->
        exists d : pydict,
          results !! i = Some d
          /\ analyze_frame self frame (Z.of_nat i) = Ok d.
Proof.
  destruct (analyze_frames_loop_spec frames 0 []) as (out & Hout & Hlen & Hnth).
  exists out. split; [done|]. split; [done|].
  intros i frame Hi. destruct (Hnth i frame Hi) as (d & Hd & Ha).
  rewrite Z.add_0_l in Ha. eauto.
Qed.

(** C7: [analyze_frames] returns one result per input frame, in input order:
    the result at position i is [analyze_frame] of the frame at position i
    and of i alone, and its frame_index is i. *)
Theorem analyze_frames_in_order (frames : list ndarray) :
  exists results : list pydict,
    analyze_frames self frames = Ok results
    /\ length results = length frames
    /\ forall (i : nat) (frame : ndarray),
        frames !! i = Some frame ->
        exists d : pydict,
          results !! i = Some d
          /\ analyze_frame self frame (Z.of_nat i) = Ok d
          /\ d !! "frame_index" = Some (VInt (Z.of_nat i)).
Proof.
  destruct (analyze_frames_in_order_aux frames) as (results & Hr & Hlen & Hnth).
  exists results. split; [done|]. split; [done|].
  intros i frame Hi. destruct (Hnth i frame Hi) as (d & Hd & Ha).
  exists d. split; [done|]. split; [done|].
  destruct (analyze_frame_returns self frame (Z.of_nat i)) as (d' & Hd' & Hidx).
  congruence.
Qed.

(** C5: an exception raised by face detection, or by preprocessing or
    inference on the selected crop, does not leave [analyze_frame]: it
    returns the dictionary with the frame index, emotion "error", confidence
    0.0 and the message. [analyze_frames] returns a result for every frame of
    the batch. *)
Theorem analyze_frame_catches (frames : list ndarray) :
  exists results : list pydict,
    analyze_frames self frames = Ok results
    /\ length results = length frames
    /\ forall (i : nat) (frame : ndarray),
        frames !! i = Some frame ->
        exists d : pydict,
          results !! i = Some d
          /\ analyze_frame self frame (Z.of_nat i) = Ok d
          /\ (forall e, detect_faces self frame = Raise e ->
                        d = error_result (Z.of_nat i) (exn_str e))
          /\ (forall faces b e,
                 detect_faces self frame = Ok faces ->
                 py_max face_key faces = Ok b ->
                 ndarray_size (_crop_face frame b) <> 0 ->
                 detect_emotion_body self (_crop_face frame b) = Raise e ->
                 d = error_result (Z.of_nat i) (exn_str e)).
Proof.
  destruct (analyze_frames_in_order_aux frames) as (results & Hr & Hlen & Hnth).
  exists results. split; [done|]. split; [done|].
  intros i frame Hi. destruct (Hnth i frame Hi) as (d & Hd & Ha).
  exists d. split; [done|]. split; [done|]. split.
  - intros e He. unfold analyze_frame, analyze_frame_body in Ha.
    rewrite He in Ha. simpl in Ha. injection Ha as <-. done.
  - intros faces b e Hf Hmax Hsz He.
    unfold analyze_frame, analyze_frame_body in Ha. rewrite Hf in Ha. simpl in Ha.
    destruct (Z.eqb_spec (Z.of_nat (length faces)) 0) as [Hl|_].
    { destruct faces; [done|]. simpl in Hl. lia. }
    rewrite Hmax in Ha. simpl in Ha.
    destruct (Z.eqb_spec (ndarray_size (_crop_face frame b)) 0) as [|_]; [done|].
    unfold detect_emotion in Ha. rewrite He in Ha. simpl in Ha.
    injection Ha as <-. done.
Qed.

End Batch.

Section BatchExamples.

Import EmotionDetector.

Lemma analyze_frames_in_order_witness :
  exists results : list pydict,
    analyze_frames demo_detector clip3 = Ok results
    /\ length results = length clip3
    /\ exists d, results !! 2%nat = Some d
                 /\ analyze_frame demo_detector (plain_frame 1 1 2) 2 = Ok d
                 /\ d !! "frame_index" = Some (VInt 2).
Proof.
  destruct (analyze_frames_in_order demo_detector clip3)
    as (results & Hr & Hlen & Hnth).
  exists results. split; [exact Hr|]. split; [exact Hlen|].
  exact (Hnth 2%nat (plain_frame 1 1 2) eq_refl).
Defined.

Lemma analyze_frame_catches_witness :
  exists results : list pydict,
    analyze_frames
      (fixed_detector (Raise (Exn "cv2.error" "cascade failed")) (Ok tied_scores))
      clip2 = Ok results
    /\ length results = length clip2
    /\ results !! 1%nat = Some (error_result 1 "cascade failed").
Proof.
  destruct (analyze_frame_catches
              (fixed_detector (Raise (Exn "cv2.error" "cascade failed")) (Ok tied_scores))
              clip2)
    as (results & Hr & Hlen & Hnth).
  exists results. split; [exact Hr|]. split; [exact Hlen|].
  destruct (Hnth 1%nat (plain_frame 1 1 1) eq_refl) as (d & Hd & _ & Hdet & _).
  rewrite Hd. f_equal.
  exact (Hdet (Exn "cv2.error" "cascade failed") eq_refl).
Defined.

(** An exception of the model is reported in the result of its frame. *)
Example analyze_frame_inference_error :
  analyze_frame
    (fixed_detector (Ok [(0, 0, 1, 1)]) (Raise (Exn "ValueError" "bad input shape")))
    (plain_frame 2 2 7) 3
  = Ok (error_result 3 "bad input shape").
Proof. reflexivity. Qed.

End BatchExamples.

Section Confidence.

Import EmotionDetector.

(** C9, as the code has it: the confidence is 0.0 in a no-face result and in
    an error result; in every other result it is the largest score of the
    model output for the selected crop, taken as it is. It lies in [0, 1]
    when every score the model returns does. *)
Theorem analyze_frame_confidence_of_model
    (self : t) (frame : ndarray) (frame_idx : Z) :
  exists (d : pydict) (c : Q),
    analyze_frame self frame frame_idx = Ok d
    /\ d !! "confidence" = Some (VFloat c)
    /\ ((d !! "emotion" = Some (VStr "no_face_detected")
         /\ d !! "scores" = None /\ d !! "error" = None
         /\ c = 0%Q)
        \/ (d !! "emotion" = Some (VStr "error")
            /\ d !! "scores" = None /\ is_Some (d !! "error")
            /\ c = 0%Q)
        \/ (exists (faces : list bbox) (b : bbox) (prediction : list Q)
                   (idx : nat) (emotion : string),
              detect_faces self frame = Ok faces
              /\ py_max face_key faces = Ok b
              /\ predict_scores self (_crop_face frame b) = Ok prediction
              /\ d !! "emotion" = Some (VStr emotion)
              /\ d !! "scores" =
                   Some (VDict (py_dict (zip (keras_emotions (settings self)) prediction)))
              /\ d !! "error" = None
              /\ prediction !! idx = Some c
              /\ (forall s, s ∈ prediction -> (s <= c)%Q)))
    /\ ((forall x prediction,
           model_predict (backend self) x = Ok prediction ->
           Forall (fun s => 0 <= s <= 1)%Q prediction) ->
        (0 <= c <= 1)%Q).
Proof.
  destruct (analyze_frame_cases self frame frame_idx)
    as [H|[(e & _ & H)|(faces & b & d & Hf & Hm & _ & Hd & H)]]; rewrite H.
  - exists (no_face_detected frame_idx), 0%Q. split; [done|]. split; [done|].
    split; [left; repeat split; done|]. intros _. done.
  - exists (error_result frame_idx (exn_str e)), 0%Q. split; [done|]. split; [done|].
    split; [right; left; repeat split; by eauto|]. intros _. done.
  - destruct (detect_emotion_cases self (_crop_face frame b))
      as [(e & _ & Hd')|(prediction & idx & emotion & c & Hs & Ha & _ & Hc & Hd')];
      rewrite Hd' in Hd; injection Hd as <-.
    + eexists _, 0%Q. split; [done|]. split; [done|].
      split; [right; left; repeat split; by eauto|]. intros _. done.
    + assert (prediction <> []) as Hne by (intros ->; done).
      destruct (np_argmax_first prediction Hne) as (idx' & c' & Ha' & Hc' & Hmax & _).
      assert (idx' = idx) as -> by congruence.
      assert (c' = c) as -> by congruence.
      eexists _, c. split; [done|]. split; [done|]. split.
      * right. right. exists faces, b, prediction, idx, emotion.
        repeat split; try done.
        intros s [j Hj]%list_elem_of_lookup. by eapply Hmax.
      * intros Hmodel. destruct (predict_scores_model self _ _ Hs) as [x Hx].
        specialize (Hmodel x prediction Hx). rewrite Forall_forall in Hmodel.
        apply Hmodel. by eapply list_elem_of_lookup_2.
Qed.

Lemma analyze_frame_confidence_of_model_witness :
  exists (d : pydict) (c : Q),
    analyze_frame (fixed_detector (Ok [(0, 0, 1, 1)]) (Ok tied_scores))
      (plain_frame 2 2 7) 0 = Ok d
    /\ d !! "confidence" = Some (VFloat c)
    /\ (0 <= c <= 1)%Q.
Proof.
  destruct (analyze_frame_confidence_of_model
              (fixed_detector (Ok [(0, 0, 1, 1)]) (Ok tied_scores)) (plain_frame 2 2 7) 0)
    as (d & c & Ha & Hc & _ & Hbound).
  exists d, c. split; [exact Ha|]. split; [exact Hc|]. apply Hbound.
  intros x prediction [= <-]. repeat constructor; simpl; lra.
Defined.

(** C9 as stated fails: a model whose output vector is not normalised (here
    raw scores with maximum 2.5) leads to a result with confidence 2.5. *)
Lemma analyze_frame_confidence_above_one :
  exists d : pydict,
    analyze_frame (fixed_detector (Ok [(0, 0, 1, 1)]) (Ok raw_scores))
      (plain_frame 2 2 7) 0 = Ok d
    /\ d !! "emotion" = Some (VStr "angry")
    /\ d !! "confidence" = Some (VFloat 2.5)
    /\ ~ (0 <= 2.5 <= 1)%Q.
Proof.
  eexists. split; [reflexivity|]. split; [reflexivity|].
  split; [reflexivity|]. intros [_ H]. revert H. vm_compute. intros H. by apply H.
Qed.

End Confidence.

(** * The job store *)

Section Jobs.

Import Main.

Variable detector : EmotionDetector.t.

Lemma _run_record fs video_path interval job_id (store : gmap string job) :
  _run detector fs video_path interval job_id store =
  <[job_id := run_record (EmotionDetector.analyze_video detector fs video_path
                            (Some interval))]> store.
Proof.
  unfold _run, run_record.
  by destruct (EmotionDetector.analyze_video _ _ _ _).
Qed.

Lemma run_record_terminal r : terminal (run_record r) /\ well_formed (run_record r).
Proof.
  destruct r as [results|e]; simpl.
  - split; [by left|]. right. left. eauto.
  - split; [by right|]. right. right. eauto.
Qed.

Lemma well_formed_cases j :
  well_formed j -> status j = "queued" \/ terminal j.
Proof. unfold terminal. intros [[? _]|[[? _]|[? _]]]; auto. Qed.

Lemma well_formed_data j :
  well_formed j -> (data j <> DataNone <-> terminal j).
Proof.
  unfold terminal.
  intros [[Hs Hd]|[[Hs [r Hd]]|[Hs [m Hd]]]]; rewrite Hs, Hd; split; try done.
  - intros [|]; done.
  - auto.
  - auto.
Qed.

Lemma pending_runs_app job_id (p q : list pool_call) :
  pending_runs job_id (p ++ q) = pending_runs job_id p ++ pending_runs job_id q.
Proof. apply filter_app. Qed.

Lemma pending_runs_none job_id (pool : list pool_call) :
  (forall t, t ∈ pool -> call_job_id t <> job_id) ->
  pending_runs job_id pool = [].
Proof.
  intros H. induction pool as [|t pool IH]; [done|].
  unfold pending_runs. rewrite filter_cons_False.
  - apply IH. intros t' Ht'. apply H. by right.
  - apply H. by left.
Qed.

(** An accepted request stores a queued job and submits one call. *)
Lemma analyze_video_cases w job_id req s :
  (exists code error, analyze_video w job_id req s = (JsonError code error, s))
  \/ exists video_path interval,
       analyze_video w job_id req s =
         (Accepted 202 job_id,
          {| _job_results :=
               <[job_id := {| status := "queued"; data := DataNone |}]> (_job_results s);
             _job_pool := _job_pool s ++ [(video_path, interval, job_id)] |}).
Proof.
  unfold analyze_video.
  destruct (negb (is_json req)); [left; eauto|].
  destruct (video_filename req) as [[|a video]|]; [left; eauto| |left; eauto].
  destruct (negb (is_file w _)); [left; eauto|]. right. eauto.
Qed.

Lemma consistent_initial : consistent initial.
Proof.
  split.
  - intros job_id j H. simpl in H. by rewrite lookup_empty in H.
  - intros t H. simpl in H. by apply elem_of_nil in H.
Qed.

Lemma consistent_step s s' :
  consistent s -> step detector s s' -> consistent s'.
Proof.
  intros [Hjobs Hpool] Hstep. destruct Hstep as [w job_id req s Hfresh|w p n job_id before after s Hq].
  - destruct (analyze_video_cases w job_id req s) as [(c & m & ->)|(p & n & ->)]; [done|].
    apply not_elem_of_dom in Hfresh. simpl.
    assert (pending_runs job_id (_job_pool s) = []) as Hnone.
    { apply pending_runs_none. intros t Ht <-.
      destruct (Hpool t Ht) as [j Hj]. congruence. }
    split; simpl.
    + intros id j Hj. rewrite pending_runs_app.
      destruct (decide (id = job_id)) as [->|Hne].
      * rewrite lookup_insert_eq in Hj. injection Hj as <-. rewrite Hnone. simpl.
        split; [by left|]. unfold pending_runs. rewrite filter_cons_True by done.
        split; [done|]. intros [|]; done.
      * rewrite lookup_insert_ne in Hj by done.
        destruct (Hjobs id j Hj) as (Hwf & Hqd & Hterm).
        unfold pending_runs at 2 4. rewrite filter_cons_False by (simpl; congruence).
        rewrite filter_nil, app_nil_r. done.
    + intros t [Ht|Ht%list_elem_of_singleton]%elem_of_app.
      * destruct (decide (call_job_id t = job_id)) as [->|Hne].
        -- rewrite lookup_insert_eq. eauto.
        -- rewrite lookup_insert_ne by done. by apply Hpool.
      * subst t. simpl. rewrite lookup_insert_eq. eauto.
  - rewrite _run_record. simpl.
    set (r := EmotionDetector.analyze_video _ _ _ _).
    destruct (run_record_terminal r) as [Hterm Hwf].
    assert (is_Some (_job_results s !! job_id)) as [j0 Hj0].
    { apply (Hpool (p, n, job_id)). rewrite Hq. set_solver. }
    destruct (Hjobs job_id j0 Hj0) as (Hwf0 & Hqd0 & Hterm0).
    rewrite Hq, !pending_runs_app in Hqd0, Hterm0.
    unfold pending_runs at 2 in Hqd0. unfold pending_runs at 2 in Hterm0.
    rewrite filter_cons_True in Hqd0, Hterm0 by done.
    destruct (well_formed_cases j0 Hwf0) as [Hq0|Ht0].
    2: { specialize (Hterm0 Ht0). by destruct (pending_runs job_id before). }
    specialize (Hqd0 Hq0). rewrite length_app in Hqd0. simpl in Hqd0.
    assert (pending_runs job_id before = [] /\ pending_runs job_id after = []) as [Hb Ha].
    { fold (pending_runs job_id after) in Hqd0.
      destruct (pending_runs job_id before), (pending_runs job_id after);
        simpl in Hqd0; try done; lia. }
    split; simpl.
    + intros id j Hj. rewrite pending_runs_app.
      destruct (decide (id = job_id)) as [->|Hne].
      * rewrite lookup_insert_eq in Hj. injection Hj as <-. rewrite Ha, Hb.
        split; [done|]. split; [|done].
        intros Hs. destruct Hterm as [H|H]; rewrite H in Hs; done.
      * rewrite lookup_insert_ne in Hj by done.
        destruct (Hjobs id j Hj) as (Hwf' & Hqd & Hterm').
        rewrite Hq, !pending_runs_app in Hqd, Hterm'.
        unfold pending_runs at 2 in Hqd. unfold pending_runs at 2 in Hterm'.
        rewrite filter_cons_False in Hqd, Hterm' by (simpl; congruence).
        done.
    + intros t Ht.
      assert (t ∈ _job_pool s) as Ht' by (rewrite Hq; set_solver).
      destruct (decide (call_job_id t = job_id)) as [->|Hne].
      * rewrite lookup_insert_eq. eauto.
      * rewrite lookup_insert_ne by done. by apply Hpool.
Qed.

Lemma reachable_consistent s : reachable detector s -> consistent s.
Proof.
  induction 1 as [|s s' _ IH Hstep]; [apply consistent_initial|].
  by eapply consistent_step.
Qed.

(** A finished job is not written again. *)
Lemma terminal_stable s s' job_id j :
  consistent s -> step detector s s' ->
  _job_results s !! job_id = Some j -> terminal j ->
  _job_results s' !! job_id = Some j.
Proof.
  intros [Hjobs Hpool] Hstep Hj Hterm.
  destruct Hstep as [w id req s Hfresh|w p n id before after s Hq].
  - destruct (analyze_video_cases w id req s) as [(c & m & ->)|(p & n & ->)]; [done|].
    simpl. rewrite lookup_insert_ne; [done|].
    intros ->. apply not_elem_of_dom in Hfresh. congruence.
  - rewrite _run_record. simpl. rewrite lookup_insert_ne; [done|].
    intros ->. destruct (Hjobs job_id j Hj) as (_ & _ & Hnone).
    specialize (Hnone Hterm). rewrite Hq, pending_runs_app in Hnone.
    unfold pending_runs at 2 in Hnone. rewrite filter_cons_True in Hnone by done.
    by destruct (pending_runs job_id before).
Qed.

(** A queued job stays queued until its call of [_run] finishes it. *)
Lemma queued_step s s' job_id j :
  step detector s s' ->
  _job_results s !! job_id = Some j ->
  exists j', _job_results s' !! job_id = Some j' /\ (j' = j \/ terminal j').
Proof.
  intros Hstep Hj.
  destruct Hstep as [w id req s Hfresh|w p n id before after s Hq].
  - destruct (analyze_video_cases w id req s) as [(c & m & ->)|(p & n & ->)]; [eauto|].
    simpl. exists j. split; [|by left]. rewrite lookup_insert_ne; [done|].
    intros ->. apply not_elem_of_dom in Hfresh. congruence.
  - rewrite _run_record. simpl. destruct (decide (id = job_id)) as [->|Hne].
    + rewrite lookup_insert_eq. eexists. split; [done|]. right.
      apply run_record_terminal.
    + rewrite lookup_insert_ne by done. eauto.
Qed.

Lemma analyze_video_cannot_open fs video_path interval :
  fs video_path = None ->
  EmotionDetector.analyze_video detector fs video_path interval =
  Raise (Exn "RuntimeError" ("Cannot open video: " +:+ video_path)).
Proof.
  intros H. unfold EmotionDetector.analyze_video, EmotionDetector.extract_frames,
    EmotionDetector.py_list, cv2_VideoCapture. by rewrite H.
Qed.

(** C6: in every state of the server, a job record has data if and only if
    its status is done or error. A request writes status queued without
    data; [_run] writes status done with the list of results, or status error
    with the message of the exception, as for a video that cannot be opened.
    A queued job has exactly one call of [_run] waiting, each step leaves it
    queued or finishes it, and a finished job has no call waiting and is
    never written again. *)
Theorem job_lifecycle (s : state) :
  reachable detector s ->
  (forall job_id j,
      _job_results s !! job_id = Some j ->
      (data j <> DataNone <-> terminal j)
      /\ well_formed j
      /\ (status j = "queued" -> exists t, pending_runs job_id (_job_pool s) = [t])
      /\ (terminal j -> pending_runs job_id (_job_pool s) = [])
      /\ (forall s', step detector s s' ->
             exists j', _job_results s' !! job_id = Some j'
                        /\ (j' = j \/ (status j = "queued" /\ terminal j'))))
  /\ (forall w job_id req s',
        analyze_video w job_id req s = (Accepted 202 job_id, s') ->
        _job_results s' !! job_id = Some {| status := "queued"; data := DataNone |})
  /\ (forall fs video_path interval job_id,
        _run detector fs video_path interval job_id (_job_results s) !! job_id =
        Some match EmotionDetector.analyze_video detector fs video_path (Some interval) with
             | Ok results => {| status := "done"; data := DataResults results |}
             | Raise e =>
                 {| status := "error"; data := DataError {["error" := exn_str e]} |}
             end)
  /\ (forall fs video_path interval job_id,
        fs video_path = None ->
        _run detector fs video_path interval job_id (_job_results s) !! job_id =
        Some {| status := "error";
                data := DataError {["error" := "Cannot open video: " +:+ video_path]} |}).
Proof.
  intros Hreach. pose proof (reachable_consistent s Hreach) as Hcons.
  destruct Hcons as [Hjobs Hpool]. split; [|split; [|split]].
  - intros job_id j Hj. destruct (Hjobs job_id j Hj) as (Hwf & Hqd & Hterm).
    split; [by apply well_formed_data|]. split; [done|]. split; [|split; [done|]].
    + intros Hs. specialize (Hqd Hs).
      destruct (pending_runs job_id (_job_pool s)) as [|t [|t' l]]; try done. eauto.
    + intros s' Hstep. destruct (queued_step s s' job_id j Hstep Hj) as (j' & Hj' & Hcase).
      exists j'. split; [done|]. destruct Hcase as [->|Ht]; [by left|].
      destruct (well_formed_cases j Hwf) as [Hs|Hfin]; [by right|]. left.
      pose proof (terminal_stable s s' job_id j (conj Hjobs Hpool) Hstep Hj Hfin).
      congruence.
  - intros w job_id req s' H.
    destruct (analyze_video_cases w job_id req s) as [(c & m & E)|(p & n & E)];
      rewrite E in H; [done|]. injection H as <-. simpl. apply lookup_insert_eq.
  - intros fs video_path interval job_id.
    rewrite _run_record, lookup_insert_eq. done.
  - intros fs video_path interval job_id Hnone.
    rewrite _run_record, lookup_insert_eq, analyze_video_cannot_open by done. done.
Qed.

(** C10: [/analyzeVideo] accepts every integer frame_interval: the request
    is answered with 202 and the call of [_run] is submitted with that
    interval. For the interval 0 on a video that opens and has a frame, the
    call ends in ZeroDivisionError and writes status error for the job. *)
Theorem analyze_video_interval_unchecked
    (w : world) (job_id : string) (req : request) (s : state)
    (video : string) (interval : Z) :
  is_json req = true ->
  video_filename req = Some video ->
  video <> "" ->
  is_file w (upload_dir backend_settings +:+ "/" +:+ secure_filename w video) = true ->
  frame_interval_arg req = Some interval ->
  let video_path := upload_dir backend_settings +:+ "/" +:+ secure_filename w video in
  analyze_video w job_id req s =
    (Accepted 202 job_id,
     {| _job_results :=
          <[job_id := {| status := "queued"; data := DataNone |}]> (_job_results s);
        _job_pool := _job_pool s ++ [(video_path, interval, job_id)] |})
  /\ (interval = 0 ->
      forall fs frame rest (store : gmap string job),
        fs video_path = Some (frame :: rest) ->
        EmotionDetector.analyze_video detector fs video_path (Some interval)
          = Raise ZeroDivisionError
        /\ _run detector fs video_path interval job_id store !! job_id =
           Some {| status := "error";
                   data := DataError {["error" := exn_str ZeroDivisionError]} |}).
Proof.
  intros Hjson Hvideo Hne Hfile Hint video_path. split.
  - destruct video as [|a video]; [done|].
    unfold analyze_video. rewrite Hjson, Hvideo. cbn [negb].
    rewrite Hfile, Hint. done.
  - intros -> fs frame rest store Hfs.
    assert (EmotionDetector.analyze_video detector fs video_path (Some 0)
            = Raise ZeroDivisionError) as Hraise.
    { unfold EmotionDetector.analyze_video, EmotionDetector.extract_frames,
        EmotionDetector.py_list, cv2_VideoCapture. rewrite Hfs. done. }
    split; [done|]. rewrite _run_record, lookup_insert_eq, Hraise. done.
Qed.

End Jobs.

Section JobExamples.

Import Main.

Lemma one_job_done_reachable : reachable demo_detector (one_job_done demo_detector).
Proof.
  apply (reachable_step demo_detector one_job_queued).
  - apply (reachable_step demo_detector initial); [apply reachable_initial|].
    apply step_analyze_video. simpl. rewrite dom_empty_L. apply not_elem_of_empty.
  - apply (step_run demo_detector (fixed_world [plain_frame 2 2 7])
             "temp_uploads/clip.mp4" 1 "job-1" [] []).
    reflexivity.
Defined.

Lemma job_lifecycle_witness :
  exists j,
    _job_results (one_job_done demo_detector) !! "job-1" = Some j
    /\ status j = "done"
    /\ (data j <> DataNone <-> terminal j)
    /\ pending_runs "job-1" (_job_pool (one_job_done demo_detector)) = [].
Proof.
  destruct (job_lifecycle demo_detector (one_job_done demo_detector)
              one_job_done_reachable)
    as (Hjobs & _).
  eexists. split; [reflexivity|]. split; [reflexivity|].
  destruct (Hjobs "job-1" _ eq_refl) as (Hiff & _ & _ & Hnone & _).
  split; [exact Hiff|]. apply Hnone. by left.
Defined.

Lemma analyze_video_interval_unchecked_witness :
  analyze_video (fixed_world clip2) "job-1" (fixed_request "clip.mp4" 0) initial =
    (Accepted 202 "job-1",
     {| _job_results := {["job-1" := {| status := "queued"; data := DataNone |}]};
        _job_pool := [("temp_uploads/clip.mp4", 0, "job-1")] |})
  /\ _run demo_detector (fs (fixed_world clip2)) "temp_uploads/clip.mp4" 0 "job-1"
       {["job-1" := {| status := "queued"; data := DataNone |}]} !! "job-1" =
     Some {| status := "error";
             data := DataError {["error" := exn_str ZeroDivisionError]} |}.
Proof.
  destruct (analyze_video_interval_unchecked demo_detector (fixed_world clip2) "job-1"
              (fixed_request "clip.mp4" 0) initial "clip.mp4" 0
              eq_refl eq_refl ltac:(discriminate) eq_refl eq_refl) as [Hacc Hzero].
  split; [exact Hacc|].
  exact (proj2 (Hzero eq_refl (fs (fixed_world clip2)) (plain_frame 1 1 0)
                  [plain_frame 1 1 1] _ eq_refl)).
Defined.

End JobExamples.

Section Release.

Import EmotionDetector.

(** Running the generator to its end releases the capture. *)
Lemma py_list_exhausted_released self fs video_path interval video :
  interval <> 0 ->
  fs video_path = Some video ->
  exists cap frames,
    py_list self fs (extract_frames self video_path (Some interval)) =
      (GenFinished (Some cap), Ok frames)
    /\ cap_released cap = true.
Proof.
  intros Hn Hv. unfold extract_frames, py_list, cv2_VideoCapture. rewrite Hv. simpl.
  rewrite loop_all_sampled by done. eauto.
Qed.

(** Closing a suspended generator leaves its capture open. *)
Lemma gen_close_suspended interval pending frame_count :
  exists cap,
    gen_close (GenSuspended interval pending frame_count) = GenFinished (Some cap)
    /\ cap_released cap = false
    /\ cap_isOpened cap = true.
Proof. by eexists. Qed.

(** C8: the code at the inputs where the release is skipped. On a video of
    two frames, a consumer that takes one frame and closes the generator
    leaves the capture open and not released; so does the interval 0, where
    the loop raises ZeroDivisionError; only the run to the end of the video
    reaches [cap.release()]. *)
Theorem extract_frames_release_skipped :
  (exists g,
      gen_next idle_detector (fun _ => Some clip2)
        (extract_frames idle_detector "clip.mp4" (Some 1)) = (g, Yield (plain_frame 1 1 0))
      /\ gen_close g = GenFinished (Some (open_cap [plain_frame 1 1 1])))
  /\ py_list idle_detector (fun _ => Some clip2)
       (extract_frames idle_detector "clip.mp4" (Some 0)) =
       (GenFinished (Some (open_cap [plain_frame 1 1 1])), Raise ZeroDivisionError)
  /\ cap_released (open_cap [plain_frame 1 1 1]) = false
  /\ cap_isOpened (open_cap [plain_frame 1 1 1]) = true
  /\ py_list idle_detector (fun _ => Some clip2)
       (extract_frames idle_detector "clip.mp4" (Some 1)) =
       (GenFinished (Some (cap_release (open_cap []))), Ok clip2)
  /\ cap_released (cap_release (open_cap [])) = true.
Proof.
  split; [eexists; split; reflexivity|].
  repeat split; reflexivity.
Qed.

End Release.

(** * More on the frame sampler *)

Section SamplerMore.

Import EmotionDetector.

Lemma mod_opp_zero c n : (c mod (- n) =? 0) = (c mod n =? 0).
Proof.
  destruct (Z.eq_dec n 0) as [->|Hn]; [done|].
  destruct (Z.eqb_spec (c mod n) 0) as [H|H].
  - apply Z.eqb_eq. by apply Z.mod_opp_r_z.
  - apply Z.eqb_neq. rewrite Z.mod_opp_r_nz by done.
    pose proof (Z.mod_bound_or c n Hn). lia.
Qed.

Lemma loop_all_opp interval pending frame_count :
  loop_all (- interval) pending frame_count = loop_all interval pending frame_count.
Proof.
  revert frame_count. induction pending as [|f rest IH]; intros c; simpl; [done|].
  unfold py_mod. rewrite IH.
  destruct (Z.eqb_spec interval 0) as [->|Hn]; [done|].
  destruct (Z.eqb_spec (- interval) 0) as [|_]; [lia|].
  by rewrite mod_opp_zero.
Qed.

Lemma py_list_abs self fs video_path interval :
  py_list self fs (extract_frames self video_path (Some interval)) =
  py_list self fs (extract_frames self video_path (Some (Z.abs interval))).
Proof.
  destruct (Z.abs_spec interval) as [[_ ->]|[_ ->]]; [done|].
  unfold extract_frames, py_list. destruct (negb _); [done|].
  symmetry. apply loop_all_opp.
Qed.

Lemma sampled_sublist interval frame_count pending :
  sampled interval frame_count pending `sublist_of` pending.
Proof.
  revert frame_count. induction pending as [|f rest IH]; intros c; simpl; [done|].
  destruct (c mod interval =? 0).
  - by apply sublist_skip.
  - by apply sublist_cons.
Qed.

Lemma sampled_every interval frame_count pending :
  interval = 1 -> sampled interval frame_count pending = pending.
Proof.
  intros ->. revert frame_count.
  induction pending as [|f rest IH]; intros c; simpl; [done|].
  rewrite Z.mod_1_r. simpl. by rewrite IH.
Qed.

Lemma sampled_none interval frame_count pending :
  0 < frame_count ->
  frame_count + Z.of_nat (length pending) <= interval ->
  sampled interval frame_count pending = [].
Proof.
  revert frame_count. induction pending as [|f rest IH]; intros c Hc Hle; simpl; [done|].
  simpl in Hle. rewrite Z.mod_small by lia.
  destruct (Z.eqb_spec c 0) as [|_]; [lia|]. apply IH; lia.
Qed.

(** X1: a negative interval samples like its absolute value: [%] with a
    negative divisor is zero on the same frame counts. *)
Theorem extract_frames_negative_interval
    (self : t) (fs : videos) (video_path : string) (interval : Z) :
  py_list self fs (extract_frames self video_path (Some (- interval))) =
  py_list self fs (extract_frames self video_path (Some interval)).
Proof.
  unfold extract_frames, py_list. destruct (negb _); [done|]. apply loop_all_opp.
Qed.

(** X2: for every interval other than 0, of either sign, the sampled frames
    are frames of the video in their original order, and the first frame of
    the video is the first one sampled. *)
Theorem extract_frames_sublist
    (self : t) (fs : videos) (video_path : string) (interval : Z)
    (video : list ndarray) :
  interval <> 0 ->
  fs video_path = Some video ->
  exists frames : list ndarray,
    py_list self fs (extract_frames self video_path (Some interval)) =
      (GenFinished (Some (cap_release (open_cap []))), Ok frames)
    /\ frames `sublist_of` video
    /\ head frames = head video.
Proof.
  intros Hn Hv. rewrite py_list_abs.
  exists (sampled (Z.abs interval) 0 video). split; [|split].
  - unfold extract_frames, py_list, cv2_VideoCapture. rewrite Hv. simpl.
    apply loop_all_sampled. lia.
  - apply sampled_sublist.
  - destruct video as [|f rest]; [done|].
    cbn [sampled]. rewrite Z.mod_0_l by lia. done.
Qed.

Lemma extract_frames_sublist_witness :
  exists frames : list ndarray,
    py_list idle_detector (fun _ => Some clip3)
      (extract_frames idle_detector "clip.mp4" (Some (-2))) =
      (GenFinished (Some (cap_release (open_cap []))), Ok frames)
    /\ frames `sublist_of` clip3
    /\ head frames = head clip3.
Proof.
  apply (extract_frames_sublist idle_detector (fun _ => Some clip3) "clip.mp4" (-2) clip3).
  - lia.
  - reflexivity.
Defined.

(** X3: with interval 1 (or -1) every frame of the video is sampled. *)
Theorem extract_frames_interval_one
    (self : t) (fs : videos) (video_path : string) (interval : Z)
    (video : list ndarray) :
  Z.abs interval = 1 ->
  fs video_path = Some video ->
  py_list self fs (extract_frames self video_path (Some interval)) =
    (GenFinished (Some (cap_release (open_cap []))), Ok video).
Proof.
  intros Hn Hv. rewrite py_list_abs, Hn.
  unfold extract_frames, py_list, cv2_VideoCapture. rewrite Hv. simpl.
  rewrite loop_all_sampled by lia. by rewrite sampled_every.
Qed.

Lemma extract_frames_interval_one_witness :
  py_list idle_detector (fun _ => Some clip3)
    (extract_frames idle_detector "clip.mp4" (Some 1)) =
    (GenFinished (Some (cap_release (open_cap []))), Ok clip3).
Proof.
  apply (extract_frames_interval_one idle_detector (fun _ => Some clip3) "clip.mp4" 1 clip3).
  - reflexivity.
  - reflexivity.
Defined.

(** X4: when the interval is at least the number of frames, only the first
    frame of a non-empty video is sampled. *)
Theorem extract_frames_large_interval
    (self : t) (fs : videos) (video_path : string) (interval : Z)
    (f : ndarray) (rest : list ndarray) :
  fs video_path = Some (f :: rest) ->
  Z.of_nat (length (f :: rest)) <= Z.abs interval ->
  py_list self fs (extract_frames self video_path (Some interval)) =
    (GenFinished (Some (cap_release (open_cap []))), Ok [f]).
Proof.
  intros Hv Hlen. rewrite py_list_abs.
  rewrite length_cons in Hlen.
  unfold extract_frames, py_list, cv2_VideoCapture. rewrite Hv.
  cbn [open_cap cap_isOpened cap_pending negb].
  rewrite loop_all_sampled by lia. cbn [sampled].
  rewrite Z.mod_0_l by lia. cbn [Z.eqb]. rewrite sampled_none; [done|lia|lia].
Qed.

Lemma extract_frames_large_interval_witness :
  py_list idle_detector (fun _ => Some clip3)
    (extract_frames idle_detector "clip.mp4" (Some 3)) =
    (GenFinished (Some (cap_release (open_cap []))), Ok [plain_frame 1 1 0]).
Proof.
  apply (extract_frames_large_interval idle_detector (fun _ => Some clip3) "clip.mp4" 3
           (plain_frame 1 1 0) [plain_frame 1 1 1; plain_frame 1 1 2]).
  - reflexivity.
  - simpl. lia.
Defined.

End SamplerMore.

Section Laziness.

Import EmotionDetector.

Variables (self : t) (fs : videos).

(** One run of the loop reads up to the next frame whose count is a multiple
    of the interval. *)
Lemma loop_next_jump interval pending frame_count :
  1 <= interval ->
  loop_next interval pending frame_count =
  match pending !! Z.to_nat ((- frame_count) mod interval) with
  | Some f =>
      (GenSuspended interval
         (drop (S (Z.to_nat ((- frame_count) mod interval))) pending)
         (frame_count + (- frame_count) mod interval),
       Yield f)
  | None => (GenFinished (Some (cap_release (open_cap []))), StopIteration)
  end.
Proof.
  intros Hn. revert frame_count.
  induction pending as [|f rest IH]; intros c; [done|].
  cbn [loop_next]. unfold py_mod.
  destruct (Z.eqb_spec interval 0) as [|_]; [lia|].
  destruct (Z.eqb_spec (c mod interval) 0) as [Hz|Hz].
  - destruct (neg_mod_at_multiple c interval Hn Hz) as [-> _].
    simpl. by rewrite Z.add_0_r.
  - destruct (neg_mod_off_multiple c interval Hn Hz) as [Ho Ho'].
    rewrite IH, Ho'. set (o := (- c) mod interval) in *.
    replace (Z.to_nat o) with (S (Z.to_nat (o - 1))) by lia.
    replace (c + 1 + (o - 1)) with (c + o) by lia. done.
Qed.

Lemma nth_next_finished cap k :
  nth_next self fs (GenFinished cap) k = (GenFinished cap, StopIteration).
Proof. induction k as [|k IH]; [done|]. simpl. apply IH. Qed.

(** The next sample after the one at frame [j * interval]. *)
Lemma gen_next_suspended interval (video : list ndarray) (j : nat) :
  1 <= interval ->
  gen_next self fs
    (GenSuspended interval (drop (S (j * Z.to_nat interval)) video)
       (Z.of_nat j * interval)) =
  match video !! ((j + 1) * Z.to_nat interval)%nat with
  | Some f =>
      (GenSuspended interval (drop (S ((j + 1) * Z.to_nat interval)) video)
         (Z.of_nat (j + 1) * interval),
       Yield f)
  | None => (GenFinished (Some (cap_release (open_cap []))), StopIteration)
  end.
Proof.
  intros Hn. cbn [gen_next]. rewrite loop_next_jump by done.
  assert ((Z.of_nat j * interval) mod interval = 0) as Hz by (apply Z.mod_mul; lia).
  destruct (neg_mod_at_multiple _ _ Hn Hz) as [_ ->].
  rewrite lookup_drop, drop_drop.
  replace (S (j * Z.to_nat interval) + Z.to_nat (interval - 1))%nat
    with ((j + 1) * Z.to_nat interval)%nat by nia.
  replace (S (j * Z.to_nat interval) + S (Z.to_nat (interval - 1)))%nat
    with (S ((j + 1) * Z.to_nat interval)) by nia.
  replace (Z.of_nat j * interval + 1 + (interval - 1))
    with (Z.of_nat (j + 1) * interval) by nia.
  done.
Qed.

Lemma nth_next_suspended interval (video : list ndarray) (j k : nat) :
  1 <= interval ->
  nth_next self fs
    (GenSuspended interval (drop (S (j * Z.to_nat interval)) video)
       (Z.of_nat j * interval)) k =
  match video !! ((j + 1 + k) * Z.to_nat interval)%nat with
  | Some f =>
      (GenSuspended interval (drop (S ((j + 1 + k) * Z.to_nat interval)) video)
         (Z.of_nat (j + 1 + k) * interval),
       Yield f)
  | None => (GenFinished (Some (cap_release (open_cap []))), StopIteration)
  end.
Proof.
  intros Hn. revert j. induction k as [|k IH]; intros j.
  - cbn [nth_next]. rewrite gen_next_suspended by done. by rewrite Nat.add_0_r.
  - specialize (IH (j + 1)%nat).
    replace (j + 1 + 1 + k)%nat with (j + 1 + S k)%nat in IH by lia.
    cbn [nth_next]. rewrite gen_next_suspended by done.
    destruct (video !! ((j + 1) * Z.to_nat interval)%nat) as [f|] eqn:E.
    + simpl. apply IH.
    + simpl. rewrite nth_next_finished.
      rewrite (proj2 (lookup_ge_None video _)); [done|].
      apply lookup_ge_None in E. nia.
Qed.

(** X5: the generator is lazy. For an interval of at least 1 on a video
    that opens, the call number k + 1 of [next] yields the frame at index
    k * interval and leaves the generator suspended with exactly the frames
    after that index unread; once that index is past the end of the video,
    the call stops the iteration with the capture released. *)
Theorem extract_frames_lazy
    (video_path : string) (interval : Z) (video : list ndarray) (k : nat) :
  1 <= interval ->
  fs video_path = Some video ->
  nth_next self fs (extract_frames self video_path (Some interval)) k =
  match video !! (k * Z.to_nat interval)%nat with
  | Some f =>
      (GenSuspended interval (drop (S (k * Z.to_nat interval)) video)
         (Z.of_nat k * interval),
       Yield f)
  | None => (GenFinished (Some (cap_release (open_cap []))), StopIteration)
  end.
Proof.
  intros Hn Hv.
  assert (gen_next self fs (extract_frames self video_path (Some interval)) =
          match video !! 0%nat with
          | Some f => (GenSuspended interval (drop 1 video) 0, Yield f)
          | None => (GenFinished (Some (cap_release (open_cap []))), StopIteration)
          end) as Hfirst.
  { unfold extract_frames, gen_next, cv2_VideoCapture. rewrite Hv.
    cbn [open_cap cap_isOpened cap_pending negb].
    rewrite loop_next_jump by done. rewrite Z.opp_0, Z.mod_0_l by lia. done. }
  destruct k as [|k].
  - cbn [nth_next]. rewrite Hfirst. done.
  - cbn [nth_next]. rewrite Hfirst.
    destruct (video !! 0%nat) as [f|] eqn:E.
    + cbn [fst].
      pose proof (nth_next_suspended interval video 0 k Hn) as H.
      replace (0 + 1 + k)%nat with (S k) in H by lia. exact H.
    + cbn [fst]. rewrite nth_next_finished.
      rewrite (proj2 (lookup_ge_None video _)); [done|].
      apply lookup_ge_None in E. lia.
Qed.

End Laziness.

Lemma extract_frames_lazy_witness :
  nth_next idle_detector (fun _ => Some clip3)
    (EmotionDetector.extract_frames idle_detector "clip.mp4" (Some 2)) 1 =
  (EmotionDetector.GenSuspended 2 [] 2, EmotionDetector.Yield (plain_frame 1 1 2)).
Proof.
  apply (extract_frames_lazy idle_detector (fun _ => Some clip3) "clip.mp4" 2 clip3 1).
  - lia.
  - reflexivity.
Defined.

(** * Cropping *)

Section Crop.

Import EmotionDetector.

Lemma py_slice_nonneg {A} (l : list A) (a n : Z) :
  0 <= a -> 0 <= n ->
  py_slice l a (a + n) =
  take (Z.to_nat (slice_len (Z.of_nat (length l)) a n))
       (drop (Z.to_nat (Z.min a (Z.of_nat (length l)))) l).
Proof.
  intros Ha Hn. unfold py_slice, slice_bound, slice_len.
  destruct (Z.ltb_spec a 0); [lia|]. destruct (Z.ltb_spec (a + n) 0); [lia|]. done.
Qed.

Lemma py_slice_length {A} (l : list A) (a n : Z) :
  0 <= a -> 0 <= n ->
  Z.of_nat (length (py_slice l a (a + n))) = slice_len (Z.of_nat (length l)) a n.
Proof.
  intros Ha Hn. rewrite py_slice_nonneg by done.
  rewrite length_take, length_drop. unfold slice_len. lia.
Qed.

Lemma py_slice_lookup {A} (l : list A) (a n : Z) (i : nat) :
  0 <= a -> 0 <= n ->
  (i < length (py_slice l a (a + n)))%nat ->
  py_slice l a (a + n) !! i = l !! (Z.to_nat a + i)%nat.
Proof.
  intros Ha Hn Hi. pose proof (py_slice_length l a n Ha Hn) as Hlen.
  rewrite py_slice_nonneg by done. unfold slice_len in *.
  rewrite lookup_take_lt by lia. rewrite lookup_drop. f_equal. lia.
Qed.

Lemma py_slice_elem {A} (l : list A) (a b : Z) (x : A) :
  x ∈ py_slice l a b -> x ∈ l.
Proof.
  unfold py_slice. intros H. by apply subseteq_take, subseteq_drop in H.
Qed.

Lemma concat_length_uniform {A} (ls : list (list A)) (m : nat) :
  Forall (fun row => length row = m) ls ->
  length (concat ls) = (length ls * m)%nat.
Proof.
  induction 1 as [|row ls Hrow _ IH]; simpl; [done|].
  rewrite length_app, IH, Hrow. done.
Qed.

(** The shape of a crop for a box with non-negative corner and size. *)
Lemma crop_face_shape (frame : ndarray) (cols : nat) (x y w h : Z) :
  Forall (fun row => length row = cols) frame ->
  0 <= x -> 0 <= y -> 0 <= w -> 0 <= h ->
  x + w < 2 ^ 31 -> y + h < 2 ^ 31 ->
  Z.of_nat (length (_crop_face frame (x, y, w, h))) =
    slice_len (Z.of_nat (length frame)) y h
  /\ Forall (fun row => Z.of_nat (length row) = slice_len (Z.of_nat cols) x w)
       (_crop_face frame (x, y, w, h)).
Proof.
  intros Hrect Hx Hy Hw Hh Hxw Hyh. unfold _crop_face.
  rewrite !int32_id by lia. split.
  - rewrite length_fmap. by apply py_slice_length.
  - apply Forall_fmap, Forall_forall. intros row Hrow. simpl.
    apply py_slice_elem in Hrow. rewrite Forall_forall in Hrect.
    rewrite py_slice_length by done. by rewrite (Hrect row Hrow).
Qed.

Lemma crop_face_size (frame : ndarray) (cols : nat) (x y w h : Z) :
  Forall (fun row => length row = cols) frame ->
  0 <= x -> 0 <= y -> 0 <= w -> 0 <= h ->
  x + w < 2 ^ 31 -> y + h < 2 ^ 31 ->
  ndarray_size (_crop_face frame (x, y, w, h)) =
    3 * (slice_len (Z.of_nat (length frame)) y h * slice_len (Z.of_nat cols) x w).
Proof.
  intros Hrect Hx Hy Hw Hh Hxw Hyh.
  destruct (crop_face_shape frame cols x y w h) as [Hrows Hcols]; try done.
  unfold ndarray_size.
  rewrite (concat_length_uniform _ (Z.to_nat (slice_len (Z.of_nat cols) x w))).
  - unfold slice_len in *. nia.
  - eapply Forall_impl; [exact Hcols|]. intros row Hr. simpl in Hr. lia.
Qed.

(** X6: for a box with positive width and height that lies within a frame
    of [rows] by [cols] pixels, the crop has [h] rows of [w] pixels, its pixel
    (i, j) is the pixel (y + i, x + j) of the frame, and its size is
    3 * w * h, so it is never empty. *)
Theorem crop_face_inside (frame : ndarray) (cols : nat) (x y w h : Z) :
  Forall (fun row => length row = cols) frame ->
  0 <= x -> 0 <= y -> 0 < w -> 0 < h ->
  x + w <= Z.of_nat cols -> y + h <= Z.of_nat (length frame) ->
  x + w < 2 ^ 31 -> y + h < 2 ^ 31 ->
  length (_crop_face frame (x, y, w, h)) = Z.to_nat h
  /\ Forall (fun row => length row = Z.to_nat w) (_crop_face frame (x, y, w, h))
  /\ (forall i j : nat,
        (i < Z.to_nat h)%nat -> (j < Z.to_nat w)%nat ->
        _crop_face frame (x, y, w, h) !! i ≫= (fun row => row !! j) =
        frame !! (Z.to_nat y + i)%nat ≫= (fun row => row !! (Z.to_nat x + j)%nat))
  /\ ndarray_size (_crop_face frame (x, y, w, h)) = 3 * w * h
  /\ ndarray_size (_crop_face frame (x, y, w, h)) <> 0.
Proof.
  intros Hrect Hx Hy Hw Hh Hxc Hyr Hxw Hyh.
  destruct (crop_face_shape frame cols x y w h) as [Hrows Hcols]; try lia; [done|].
  pose proof (crop_face_size frame cols x y w h Hrect) as Hsize.
  unfold slice_len in *.
  assert (ndarray_size (_crop_face frame (x, y, w, h)) = 3 * w * h) as Hs
    by (rewrite Hsize by lia; nia).
  split; [lia|]. split; [|split; [|split; [done|nia]]].
  - eapply Forall_impl; [exact Hcols|]. intros row Hr. simpl in Hr. lia.
  - intros i j Hi Hj. unfold _crop_face. rewrite !int32_id by lia.
    rewrite list_lookup_fmap.
    assert (length (py_slice frame y (y + h)) = Z.to_nat h) as Hlen.
    { pose proof (py_slice_length frame y h Hy ltac:(lia)) as H.
      unfold slice_len in H. lia. }
    rewrite py_slice_lookup by lia.
    destruct (frame !! (Z.to_nat y + i)%nat) as [row|] eqn:Erow; [|done].
    simpl. rewrite Forall_forall in Hrect.
    assert (length row = cols) as Hrow
      by (apply Hrect; by eapply list_elem_of_lookup_2).
    apply py_slice_lookup; [lia..|].
    pose proof (py_slice_length row x w Hx ltac:(lia)) as H.
    unfold slice_len in H. lia.
Qed.

Lemma crop_face_inside_witness :
  length (_crop_face (plain_frame 30 80 7) (20, 0, 20, 20)) = Z.to_nat 20
  /\ Forall (fun row => length row = Z.to_nat 20)
       (_crop_face (plain_frame 30 80 7) (20, 0, 20, 20))
  /\ (forall i j : nat,
        (i < Z.to_nat 20)%nat -> (j < Z.to_nat 20)%nat ->
        _crop_face (plain_frame 30 80 7) (20, 0, 20, 20) !! i ≫= (fun row => row !! j) =
        plain_frame 30 80 7 !! (Z.to_nat 0 + i)%nat
          ≫= (fun row => row !! (Z.to_nat 20 + j)%nat))
  /\ ndarray_size (_crop_face (plain_frame 30 80 7) (20, 0, 20, 20)) = 3 * 20 * 20
  /\ ndarray_size (_crop_face (plain_frame 30 80 7) (20, 0, 20, 20)) <> 0.
Proof.
  apply (crop_face_inside (plain_frame 30 80 7) 80 20 0 20 20).
  - unfold plain_frame. apply Forall_replicate. by rewrite length_replicate.
  - lia.
  - lia.
  - lia.
  - lia.
  - lia.
  - unfold plain_frame. rewrite length_replicate. lia.
  - lia.
  - lia.
Defined.

(** X7: for a box with non-negative corner and positive width and height,
    the crop is empty exactly when the corner of the box lies outside the
    frame, below its last row or right of its last column. *)
Theorem crop_face_empty_iff (frame : ndarray) (cols : nat) (x y w h : Z) :
  Forall (fun row => length row = cols) frame ->
  0 <= x -> 0 <= y -> 0 < w -> 0 < h ->
  x + w < 2 ^ 31 -> y + h < 2 ^ 31 ->
  ndarray_size (_crop_face frame (x, y, w, h)) = 0
  <-> Z.of_nat (length frame) <= y \/ Z.of_nat cols <= x.
Proof.
  intros Hrect Hx Hy Hw Hh Hxw Hyh.
  rewrite (crop_face_size frame cols x y w h Hrect) by lia.
  unfold slice_len. split; intros H; [|nia].
  destruct (Z.le_gt_cases (Z.of_nat (length frame)) y) as [|Hr]; [by left|].
  destruct (Z.le_gt_cases (Z.of_nat cols) x) as [|Hc]; [by right|]. nia.
Qed.

Lemma crop_face_empty_iff_witness :
  ndarray_size (_crop_face (plain_frame 2 2 7) (5, 5, 3, 3)) = 0
  <-> Z.of_nat (length (plain_frame 2 2 7)) <= 5 \/ Z.of_nat 2 <= 5.
Proof.
  apply (crop_face_empty_iff (plain_frame 2 2 7) 2 5 5 3 3).
  - unfold plain_frame. apply Forall_replicate. by rewrite length_replicate.
  - lia.
  - lia.
  - lia.
  - lia.
  - lia.
  - lia.
Defined.

End Crop.

(** * More on classification and frame analysis *)

Section ClassificationMore.

Import EmotionDetector.

Variable self : t.

Lemma fst_zip_take {A B} (l : list A) (k : list B) :
  (zip l k).*1 = take (length k) l.
Proof.
  revert k. induction l as [|a l IH]; intros [|b k]; simpl; try done.
  by rewrite IH.
Qed.

(** X8: when the model returns more scores than there are labels and the
    largest score lies beyond the last label, [detect_emotion] does not
    raise: the IndexError of the label lookup is caught and reported in an
    error result. *)
Theorem detect_emotion_index_error
    (face_img : ndarray) (prediction : list Q) (idx : nat) :
  predict_scores self face_img = Ok prediction ->
  np_argmax prediction = Ok idx ->
  (length (keras_emotions (settings self)) <= idx)%nat ->
  detect_emotion self face_img =
    Ok (py_dict [("emotion", VStr "error"); ("confidence", VFloat 0);
                 ("error", VStr "list index out of range")]).
Proof.
  intros Hs Ha Hlen. unfold detect_emotion.
  rewrite detect_emotion_body_scores, Hs. simpl. rewrite Ha. simpl.
  assert (keras_emotions (settings self) !! idx = None) as Hnone
    by (by apply lookup_ge_None).
  unfold list_getitem. rewrite Hnone. done.
Qed.

(** X9: the result of [detect_emotion] has one of two shapes: the keys
    emotion, confidence and scores, or the keys emotion, confidence and
    error with emotion "error" and confidence 0.0. It never has both scores
    and error, and never a frame_index. *)
Theorem detect_emotion_keys (face_img : ndarray) :
  exists d : pydict,
    detect_emotion self face_img = Ok d
    /\ (dom d = {["emotion"; "confidence"; "scores"]}
        \/ (dom d = {["emotion"; "confidence"; "error"]}
            /\ d !! "emotion" = Some (VStr "error")
            /\ d !! "confidence" = Some (VFloat 0)))
    /\ d !! "frame_index" = None.
Proof.
  destruct (detect_emotion_cases self face_img)
    as [(e & _ & ->)|(p & i & em & c & _ & _ & _ & _ & ->)]; eexists; (split; [done|]).
  - split; [right|done]. repeat split; done.
  - split; [left|done]. done.
Qed.

(** X10: in a successful result the keys of scores are the first
    [len(prediction)] labels: a model with fewer outputs than labels leaves
    the remaining labels out, and scores beyond the last label are dropped. *)
Theorem detect_emotion_scores_keys
    (face_img : ndarray) (prediction : list Q) (d : pydict) :
  predict_scores self face_img = Ok prediction ->
  detect_emotion_body self face_img = Ok d ->
  exists scores : gmap string Q,
    d !! "scores" = Some (VDict scores)
    /\ dom scores =
       list_to_set (take (length prediction) (keras_emotions (settings self))).
Proof.
  intros Hs Hbody. rewrite detect_emotion_body_scores, Hs in Hbody. simpl in Hbody.
  destruct (np_argmax prediction) as [idx|e]; simpl in Hbody; [|done].
  unfold list_getitem in Hbody.
  destruct (keras_emotions (settings self) !! idx) as [emotion|];
    simpl in Hbody; [|done].
  destruct (prediction !! idx) as [c|]; simpl in Hbody; [|done].
  injection Hbody as <-. eexists. split; [done|].
  by rewrite py_dict_dom, fst_zip_take.
Qed.

(** X11: every result of [analyze_frame] has frame_index, emotion and
    confidence, and is of one of three kinds: no face (exactly these three
    keys, confidence 0.0), error (with the key error in addition, confidence
    0.0), or a classification (with the key scores in addition and a
    configured label as emotion). *)
Theorem analyze_frame_kinds (frame : ndarray) (frame_idx : Z) :
  exists d : pydict,
    analyze_frame self frame frame_idx = Ok d
    /\ d !! "frame_index" = Some (VInt frame_idx)
    /\ ((d !! "emotion" = Some (VStr "no_face_detected")
         /\ d !! "confidence" = Some (VFloat 0)
         /\ dom d = {["frame_index"; "emotion"; "confidence"]})
        \/ (d !! "emotion" = Some (VStr "error")
            /\ d !! "confidence" = Some (VFloat 0)
            /\ (exists msg, d !! "error" = Some (VStr msg))
            /\ dom d = {["frame_index"; "emotion"; "confidence"; "error"]})
        \/ (exists emotion c scores,
              emotion ∈ keras_emotions (settings self)
              /\ d !! "emotion" = Some (VStr emotion)
              /\ d !! "confidence" = Some (VFloat c)
              /\ d !! "scores" = Some (VDict scores)
              /\ dom d = {["frame_index"; "emotion"; "confidence"; "scores"]})).
Proof.
  destruct (analyze_frame_cases self frame frame_idx)
    as [H|[(e & _ & H)|(faces & b & d & _ & _ & _ & Hd & H)]]; rewrite H.
  - eexists. split; [done|]. split; [done|]. left. repeat split; done.
  - eexists. split; [done|]. split; [done|]. right. left.
    split; [done|]. split; [done|]. split; [by eexists|]. done.
  - eexists. split; [done|]. split; [apply lookup_insert_eq|].
    destruct (detect_emotion_cases self (_crop_face frame b))
      as [(e & _ & Hd')|(p & i & em & c & _ & _ & Hem & _ & Hd')];
      rewrite Hd' in Hd; injection Hd as <-.
    + right. left. split; [done|]. split; [done|]. split; [by eexists|]. done.
    + right. right. exists em, c, (py_dict (zip (keras_emotions (settings self)) p)).
      split; [by eapply list_elem_of_lookup_2|]. repeat split; done.
Qed.

End ClassificationMore.

Section ClassificationMoreExamples.

Import EmotionDetector.

Lemma detect_emotion_index_error_witness :
  detect_emotion
    (fixed_detector (Ok []) (Ok (tied_scores ++ [0.9%Q]))) (plain_frame 2 2 7) =
    Ok (py_dict [("emotion", VStr "error"); ("confidence", VFloat 0);
                 ("error", VStr "list index out of range")]).
Proof.
  apply (detect_emotion_index_error
           (fixed_detector (Ok []) (Ok (tied_scores ++ [0.9%Q])))
           (plain_frame 2 2 7) (tied_scores ++ [0.9%Q]) 8).
  - reflexivity.
  - reflexivity.
  - simpl. lia.
Defined.

Lemma detect_emotion_scores_keys_witness :
  exists scores : gmap string Q,
    py_dict [("emotion", VStr "disgust"); ("confidence", VFloat 0.8);
             ("scores", VDict (py_dict [("angry", 0.2%Q); ("disgust", 0.8%Q)]))]
      !! "scores" = Some (VDict scores)
    /\ dom scores =
       list_to_set (take (length [0.2%Q; 0.8%Q])
                      (keras_emotions (settings demo_detector))).
Proof.
  apply (detect_emotion_scores_keys demo_detector (plain_frame 2 2 7) [0.2%Q; 0.8%Q]).
  - reflexivity.
  - reflexivity.
Defined.

End ClassificationMoreExamples.

(** * More on batches and on the analysis of a video *)

Section BatchMore.

Import EmotionDetector.

Variable self : t.

Lemma relabel_no_face (idx idx' : Z) :
  <["frame_index" := VInt idx]> (no_face_detected idx') = no_face_detected idx.
Proof.
  unfold no_face_detected, py_dict, store_pairs. simpl.
  rewrite !(insert_insert_ne _ "frame_index") by done.
  by rewrite insert_insert_eq.
Qed.

Lemma relabel_error (idx idx' : Z) (msg : string) :
  <["frame_index" := VInt idx]>
    (py_dict [("frame_index", VInt idx'); ("emotion", VStr "error");
              ("confidence", VFloat 0); ("error", VStr msg)]) =
  py_dict [("frame_index", VInt idx); ("emotion", VStr "error");
           ("confidence", VFloat 0); ("error", VStr msg)].
Proof.
  unfold py_dict, store_pairs. simpl.
  rewrite !(insert_insert_ne _ "frame_index") by done.
  by rewrite insert_insert_eq.
Qed.

(** The frame index only labels the result. *)
Lemma analyze_frame_relabel (frame : ndarray) (idx idx' : Z) :
  analyze_frame self frame idx =
  (fun d : pydict => <["frame_index" := VInt idx]> d) <$> analyze_frame self frame idx'.
Proof.
  unfold analyze_frame, analyze_frame_body.
  destruct (detect_faces self frame) as [faces|e]; simpl;
    [|by rewrite relabel_error].
  destruct (Z.of_nat (length faces) =? 0); simpl; [by rewrite relabel_no_face|].
  destruct (py_max face_key faces) as [b|e]; simpl; [|by rewrite relabel_error].
  destruct (ndarray_size (_crop_face frame b) =? 0); simpl;
    [by rewrite relabel_no_face|].
  destruct (detect_emotion_returns self (_crop_face frame b)) as [d ->]. simpl.
  by rewrite insert_insert_eq.
Qed.

(** X12: the frame index passed to [analyze_frame] only labels the result:
    the analysis of a frame under one index is the analysis under any other
    index with the entry frame_index replaced. *)
Theorem analyze_frame_index_labels (frame : ndarray) (idx idx' : Z) :
  analyze_frame self frame idx =
  (fun d : pydict => <["frame_index" := VInt idx]> d) <$> analyze_frame self frame idx'.
Proof. apply analyze_frame_relabel. Qed.

(** X13: [analyze_frames] on a concatenation returns the results of the
    first list followed by the results of the second list, the latter with
    their frame_index moved up by the length of the first list. *)
Theorem analyze_frames_app (a b : list ndarray) :
  exists ra rb : list pydict,
    analyze_frames self a = Ok ra
    /\ analyze_frames self b = Ok rb
    /\ analyze_frames self (a ++ b) =
       Ok (ra ++ imap (fun i (d : pydict) =>
                         <["frame_index" := VInt (Z.of_nat (length a + i))]> d) rb).
Proof.
  destruct (analyze_frames_in_order_aux self a) as (ra & Hra & Hla & Hna).
  destruct (analyze_frames_in_order_aux self b) as (rb & Hrb & Hlb & Hnb).
  destruct (analyze_frames_in_order_aux self (a ++ b)) as (rab & Hrab & Hlab & Hnab).
  exists ra, rb. split; [done|]. split; [done|]. rewrite Hrab. f_equal.
  apply list_eq. intros i.
  destruct (decide (i < length a)%nat) as [Hi|Hi].
  - rewrite lookup_app_l by lia.
    destruct (lookup_lt_is_Some_2 a i Hi) as [frame Hf].
    destruct (Hna i frame Hf) as (d & Hd & Had).
    destruct (Hnab i frame) as (d' & Hd' & Had'); [by rewrite lookup_app_l|].
    congruence.
  - rewrite lookup_app_r by lia. rewrite Hla.
    destruct (b !! (i - length a)%nat) as [frame|] eqn:Hf.
    + destruct (Hnb _ frame Hf) as (d & Hd & Had).
      destruct (Hnab i frame) as (d' & Hd' & Had'); [by rewrite lookup_app_r by lia|].
      rewrite Hd', list_lookup_imap, Hd. simpl. f_equal.
      rewrite (analyze_frame_relabel frame (Z.of_nat i) (Z.of_nat (i - length a))), Had
        in Had'.
      injection Had' as <-. do 3 f_equal. lia.
    + apply lookup_ge_None in Hf.
      rewrite (proj2 (lookup_ge_None rab i)) by (rewrite Hlab, length_app; lia).
      symmetry. apply lookup_ge_None. rewrite length_imap. lia.
Qed.

(** The analysis of a video that opens, for an interval of at least 1. *)
Lemma analyze_video_sampled (fs : videos) (video_path : string)
    (interval : option Z) (video : list ndarray) :
  1 <= effective_interval self interval ->
  fs video_path = Some video ->
  exists results : list pydict,
    analyze_video self fs video_path interval = Ok results
    /\ Z.of_nat (length results) =
       (Z.of_nat (length video) + effective_interval self interval - 1)
       / effective_interval self interval
    /\ forall (k : nat) (frame : ndarray),
        video !! (k * Z.to_nat (effective_interval self interval))%nat = Some frame ->
        exists d : pydict,
          results !! k = Some d
          /\ analyze_frame self frame (Z.of_nat k) = Ok d
          /\ d !! "frame_index" = Some (VInt (Z.of_nat k)).
Proof.
  intros Hn Hv. set (n := effective_interval self interval) in *.
  assert (py_list self fs (extract_frames self video_path interval) =
          (GenFinished (Some (cap_release (open_cap []))), Ok (sampled n 0 video)))
    as Hlist.
  { unfold extract_frames, py_list, cv2_VideoCapture. rewrite Hv.
    cbn [open_cap cap_isOpened cap_pending negb]. apply loop_all_sampled. lia. }
  destruct (sampled_stride n video 0 Hn) as [Hlen Hnth].
  rewrite Z.opp_0, Z.mod_0_l in Hlen, Hnth by lia.
  destruct (analyze_frames_in_order_aux self (sampled n 0 video))
    as (results & Hr & Hl & Hres).
  exists results. split; [|split].
  - unfold analyze_video. rewrite Hlist. simpl. exact Hr.
  - rewrite Hl, Hlen. f_equal. lia.
  - intros k frame Hk.
    destruct (Hres k frame) as (d & Hd & Ha).
    { rewrite Hnth, <- Hk. f_equal. nia. }
    exists d. split; [done|]. split; [done|].
    destruct (analyze_frame_returns self frame (Z.of_nat k)) as (d' & Hd' & Hidx).
    congruence.
Qed.

(** X14: for an interval N of at least 1 (the default of the settings when
    none is given) on a video of F frames that opens, [analyze_video] returns
    ceil(F / N) results; result k is the analysis of the frame at original
    index k * N and carries frame_index k, the position in the sampled
    sequence, not the original index. *)
Theorem analyze_video_results (fs : videos) (video_path : string)
    (interval : option Z) (video : list ndarray) :
  1 <= effective_interval self interval ->
  fs video_path = Some video ->
  exists results : list pydict,
    analyze_video self fs video_path interval = Ok results
    /\ Z.of_nat (length results) =
       (Z.of_nat (length video) + effective_interval self interval - 1)
       / effective_interval self interval
    /\ forall (k : nat) (frame : ndarray),
        video !! (k * Z.to_nat (effective_interval self interval))%nat = Some frame ->
        exists d : pydict,
          results !! k = Some d
          /\ analyze_frame self frame (Z.of_nat k) = Ok d
          /\ d !! "frame_index" = Some (VInt (Z.of_nat k)).
Proof. apply analyze_video_sampled. Qed.

(** X15: [analyze_video] raises in two situations only: the video cannot
    be opened (RuntimeError, whatever the interval), or the interval is 0
    and the video has at least one frame (ZeroDivisionError). A failure in
    the analysis of a frame never makes it raise. *)
Theorem analyze_video_raises_iff (fs : videos) (video_path : string)
    (interval : option Z) (e : exn) :
  analyze_video self fs video_path interval = Raise e
  <-> (fs video_path = None
       /\ e = Exn "RuntimeError" ("Cannot open video: " +:+ video_path))
      \/ (exists frame rest,
            fs video_path = Some (frame :: rest)
            /\ effective_interval self interval = 0
            /\ e = ZeroDivisionError).
Proof.
  unfold analyze_video, extract_frames, py_list, cv2_VideoCapture.
  fold (effective_interval self interval).
  destruct (fs video_path) as [video|] eqn:Hv;
    cbn [open_cap cap_isOpened cap_pending negb].
  - destruct (Z.eq_dec (effective_interval self interval) 0) as [Hz|Hz].
    + rewrite Hz. destruct video as [|frame rest]; simpl.
      * split; [done|]. intros [[? _]|(f & r & ? & _)]; done.
      * split.
        -- intros [= <-]. right. eauto.
        -- intros [[? _]|(f & r & _ & _ & ->)]; done.
    + rewrite loop_all_sampled by done. simpl.
      destruct (analyze_frames_in_order_aux self
                  (sampled (effective_interval self interval) 0 video))
        as (results & -> & _).
      split; [done|]. intros [[? _]|(f & r & _ & ? & _)]; done.
  - simpl. split.
    + intros [= <-]. by left.
    + intros [[_ ->]|(f & r & ? & _)]; done.
Qed.

End BatchMore.

Section BatchMoreExamples.

Import EmotionDetector.

Lemma analyze_video_results_witness :
  exists results : list pydict,
    analyze_video demo_detector (fun _ => Some clip3) "clip.mp4" (Some 2) = Ok results
    /\ Z.of_nat (length results) = (Z.of_nat (length clip3) + 2 - 1) / 2
    /\ forall (k : nat) (frame : ndarray),
        clip3 !! (k * Z.to_nat 2)%nat = Some frame ->
        exists d : pydict,
          results !! k = Some d
          /\ analyze_frame demo_detector frame (Z.of_nat k) = Ok d
          /\ d !! "frame_index" = Some (VInt (Z.of_nat k)).
Proof.
  apply (analyze_video_results demo_detector (fun _ => Some clip3) "clip.mp4"
           (Some 2) clip3).
  - simpl. lia.
  - reflexivity.
Defined.

Lemma analyze_video_raises_iff_witness :
  analyze_video demo_detector (fun _ => None) "clip.mp4" (Some 0) =
    Raise (Exn "RuntimeError" "Cannot open video: clip.mp4").
Proof.
  apply (analyze_video_raises_iff demo_detector (fun _ => None) "clip.mp4" (Some 0)).
  left. split; reflexivity.
Defined.

End BatchMoreExamples.

(** * Uploads *)

Section Upload.

Lemma rsplit_last_none sep s :
  rsplit_last sep s = None <-> str_contains sep s = false.
Proof.
  induction s as [|a r IH]; simpl; [done|].
  destruct (rsplit_last sep r) as [[l x]|].
  - destruct (decide (a = sep)); [done|]. split; [done|].
    intros H. apply IH in H. done.
  - destruct (decide (a = sep)); [done|]. split; [intros _; by apply IH|done].
Qed.

Lemma rsplit_last_join sep l r :
  str_contains sep r = false ->
  rsplit_last sep (l +:+ String sep r) = Some (l, r).
Proof.
  intros Hr. induction l as [|b l IH]; simpl.
  - apply rsplit_last_none in Hr. rewrite Hr. by rewrite decide_True.
  - by rewrite IH.
Qed.

Lemma rsplit_last_split sep s l r :
  rsplit_last sep s = Some (l, r) ->
  s = l +:+ String sep r /\ str_contains sep r = false.
Proof.
  revert l r. induction s as [|a s IH]; intros l r H; simpl in H; [done|].
  destruct (rsplit_last sep s) as [[l' x]|] eqn:E.
  - injection H as <- <-. destruct (IH l' x eq_refl) as [-> Hx].
    split; [reflexivity|assumption].
  - destruct (decide (a = sep)) as [->|]; [|done]. injection H as <- <-.
    split; [reflexivity|]. by apply rsplit_last_none.
Qed.

Lemma rsplit_last_some sep s l r :
  rsplit_last sep s = Some (l, r)
  <-> s = l +:+ String sep r /\ str_contains sep r = false.
Proof.
  split; [apply rsplit_last_split|]. intros [-> Hr]. by apply rsplit_last_join.
Qed.

(** X16: [_allowed_file] never raises. It accepts a name exactly when the
    name has a dot and the part after its last dot, in lower case, is one of
    the allowed extensions; the part before the last dot is arbitrary and
    may be empty. *)
Theorem allowed_file_spec (name : string) :
  exists b : bool,
    _allowed_file name = Ok b
    /\ (b = true
        <-> exists stem ext : string,
              name = stem +:+ "." +:+ ext
              /\ str_contains "."%char ext = false
              /\ str_lower ext ∈ Main.allowed_ext Main.backend_settings).
Proof.
  unfold _allowed_file, py_rsplit1.
  destruct (rsplit_last "."%char name) as [[l r]|] eqn:E.
  - assert (str_contains "."%char name = true) as ->.
    { destruct (str_contains "."%char name) eqn:Hc; [done|].
      apply rsplit_last_none in Hc. congruence. }
    simpl. eexists. split; [done|].
    apply rsplit_last_some in E as [-> Hr]. rewrite bool_decide_eq_true. split.
    + intros H. exists l, r. done.
    + intros (stem & ext & Heq & Hext & Hin).
      assert (rsplit_last "."%char (l +:+ String "."%char r) = Some (stem, ext)) as H
        by (apply rsplit_last_some; done).
      assert (rsplit_last "."%char (l +:+ String "."%char r) = Some (l, r)) as H'
        by (apply rsplit_last_some; done).
      congruence.
  - apply rsplit_last_none in E. rewrite E. exists false. split; [done|].
    split; [done|]. intros (stem & ext & -> & Hext & _).
    apply rsplit_last_none in E.
    assert (rsplit_last "."%char (stem +:+ "." +:+ ext) = Some (stem, ext)) as H
      by (apply rsplit_last_some; done).
    congruence.
Qed.

Lemma ascii_lower_dot a : ascii_lower a = "."%char <-> a = "."%char.
Proof.
  split; [|by intros ->].
  destruct a as [[] [] [] [] [] [] [] []]; vm_compute; congruence.
Qed.

Lemma ascii_lower_idemp a : ascii_lower (ascii_lower a) = ascii_lower a.
Proof. destruct a as [[] [] [] [] [] [] [] []]; reflexivity. Qed.

Lemma str_lower_idemp s : str_lower (str_lower s) = str_lower s.
Proof. induction s as [|a s IH]; simpl; [done|]. by rewrite ascii_lower_idemp, IH. Qed.

Lemma rsplit_last_lower s :
  rsplit_last "."%char (str_lower s) =
  prod_map str_lower str_lower <$> rsplit_last "."%char s.
Proof.
  induction s as [|a s IH]; simpl; [done|]. rewrite IH.
  destruct (rsplit_last "."%char s) as [[l r]|]; simpl; [done|].
  destruct (decide (a = "."%char)) as [->|Hne]; [done|].
  rewrite decide_False; [done|]. by rewrite ascii_lower_dot.
Qed.

(** X17: [_allowed_file] does not depend on the case of the letters A to Z
    of the name: it gives the same answer on the lower-cased name. *)
Theorem allowed_file_case_insensitive (name : string) :
  _allowed_file (str_lower name) = _allowed_file name.
Proof.
  unfold _allowed_file, py_rsplit1. rewrite rsplit_last_lower.
  destruct (rsplit_last "."%char name) as [[l r]|] eqn:E; simpl.
  - assert (str_contains "."%char name = true) as ->.
    { destruct (str_contains "."%char name) eqn:Hc; [done|].
      apply rsplit_last_none in Hc. congruence. }
    assert (str_contains "."%char (str_lower name) = true) as ->.
    { destruct (str_contains "."%char (str_lower name)) eqn:Hc; [done|].
      apply rsplit_last_none in Hc. rewrite rsplit_last_lower, E in Hc. done. }
    simpl. by rewrite str_lower_idemp.
  - assert (str_contains "."%char name = false) as -> by (by apply rsplit_last_none).
    assert (str_contains "."%char (str_lower name) = false) as ->.
    { apply rsplit_last_none. by rewrite rsplit_last_lower, E. }
    done.
Qed.

Lemma upload_video_shape (w : Main.world) (save : string -> result unit)
    (uuid4 : string) (file : option string) :
  match upload_video w save uuid4 file with
  | Ok (UploadCreated code name, dest) =>
      code = 201
      /\ (exists filename, file = Some filename /\ _allowed_file filename = Ok true)
      /\ (exists ext,
            ext ∈ Main.allowed_ext Main.backend_settings
            /\ name = Main.secure_filename w (uuid4 +:+ "." +:+ ext))
      /\ dest = Some (Main.upload_dir Main.backend_settings +:+ "/" +:+ name)
      /\ save (Main.upload_dir Main.backend_settings +:+ "/" +:+ name) = Ok ()
  | Ok (UploadError code _, dest) =>
      code = 400 /\ dest = None
      /\ forall filename, file = Some filename -> _allowed_file filename <> Ok true
  | Raise e =>
      (exists filename, file = Some filename /\ _allowed_file filename = Ok true)
      /\ exists ext,
           ext ∈ Main.allowed_ext Main.backend_settings
           /\ save (Main.upload_dir Main.backend_settings +:+ "/" +:+
                      Main.secure_filename w (uuid4 +:+ "." +:+ ext)) = Raise e
  end.
Proof.
  unfold upload_video. destruct file as [filename|].
  2: { split; [reflexivity|]. split; [reflexivity|]. intros filename H. discriminate H. }
  case_bool_decide as Hempty.
  { subst. split; [done|]. split; [done|]. intros ? [= <-]. done. }
  destruct (allowed_file_spec filename) as (b & Hb & Hspec). rewrite Hb. simpl.
  destruct b; simpl.
  - destruct (proj1 Hspec eq_refl) as (stem & ext & -> & Hext & Hin).
    assert (rsplit_last "."%char (stem +:+ "." +:+ ext) = Some (stem, ext)) as Hsplit
      by (apply rsplit_last_some; done).
    unfold py_rsplit1. rewrite Hsplit. simpl.
    destruct (save _) as [[]|e] eqn:Hsave; simpl.
    + split; [done|]. split; [eauto|]. split; [eauto|]. split; [done|exact Hsave].
    + split; [eauto|]. eauto.
  - split; [done|]. split; [done|]. intros ? [= <-]. congruence.
Qed.

(** X18: [upload_video] raises only when saving the file raises, and then
    with that exception. It answers 201 only for a file whose name
    [_allowed_file] accepts and whose save succeeded; the stored name is
    [secure_filename] of the fresh identifier, a dot and one of the allowed
    extensions, so nothing of the client's name but its extension is used,
    and the file is saved under the upload directory. A request without a
    file, or with a name that is empty or not allowed, is answered 400 and
    nothing is saved. *)
Theorem upload_video_outcome (w : Main.world) (save : string -> result unit)
    (uuid4 : string) (file : option string) :
  match upload_video w save uuid4 file with
  | Ok (UploadCreated code name, dest) =>
      code = 201
      /\ (exists filename, file = Some filename /\ _allowed_file filename = Ok true)
      /\ (exists ext,
            ext ∈ Main.allowed_ext Main.backend_settings
            /\ name = Main.secure_filename w (uuid4 +:+ "." +:+ ext))
      /\ dest = Some (Main.upload_dir Main.backend_settings +:+ "/" +:+ name)
      /\ save (Main.upload_dir Main.backend_settings +:+ "/" +:+ name) = Ok ()
  | Ok (UploadError code _, dest) =>
      code = 400 /\ dest = None
      /\ forall filename, file = Some filename -> _allowed_file filename <> Ok true
  | Raise e =>
      (exists filename, file = Some filename /\ _allowed_file filename = Ok true)
      /\ exists ext,
           ext ∈ Main.allowed_ext Main.backend_settings
           /\ save (Main.upload_dir Main.backend_settings +:+ "/" +:+
                      Main.secure_filename w (uuid4 +:+ "." +:+ ext)) = Raise e
  end.
Proof. apply upload_video_shape. Qed.

(** X19: a file that was just uploaded can be analysed under the name that
    [upload_video] returned: when [secure_filename] leaves that name
    unchanged and the saved file exists, [/analyzeVideo] finds the file,
    answers 202 and submits a call of [_run] on the very path that was
    saved, with the given interval or the default 10. *)
Theorem upload_then_analyze
    (w w' : Main.world) (save : string -> result unit)
    (uuid4 filename name dest job_id : string)
    (interval : option Z) (s : Main.state) :
  upload_video w save uuid4 (Some filename) = Ok (UploadCreated 201 name, Some dest) ->
  name <> "" ->
  Main.secure_filename w' name = name ->
  Main.is_file w' dest = true ->
  Main.analyze_video w' job_id
    {| Main.is_json := true; Main.video_filename := Some name;
       Main.frame_interval_arg := interval |} s =
  (Main.Accepted 202 job_id,
   {| Main._job_results :=
        <[job_id := {| Main.status := "queued"; Main.data := Main.DataNone |}]>
          (Main._job_results s);
      Main._job_pool := Main._job_pool s ++ [(dest, default 10 interval, job_id)] |}).
Proof.
  intros Hup Hne Hsec Hfile.
  assert (dest = Main.upload_dir Main.backend_settings +:+ "/" +:+ name) as Hdest.
  { pose proof (upload_video_shape w save uuid4 (Some filename)) as Hm.
    rewrite Hup in Hm. destruct Hm as (_ & _ & _ & [= ->] & _). done. }
  unfold Main.analyze_video. cbn [Main.is_json Main.video_filename negb].
  destruct name as [|a name]; [done|].
  rewrite Hsec, <- Hdest, Hfile. done.
Qed.

End Upload.

Section UploadExamples.

Example allowed_file_examples :
  _allowed_file "Holiday.MP4" = Ok true
  /\ _allowed_file "archive.mp4.exe" = Ok false
  /\ _allowed_file "noextension" = Ok false
  /\ _allowed_file "trailing." = Ok false
  /\ _allowed_file ".webm" = Ok true.
Proof. repeat split; reflexivity. Qed.

Lemma upload_then_analyze_witness :
  Main.analyze_video (fixed_world clip3) "job-1"
    {| Main.is_json := true; Main.video_filename := Some "u1.mp4";
       Main.frame_interval_arg := None |} Main.initial =
  (Main.Accepted 202 "job-1",
   {| Main._job_results :=
        <["job-1" := {| Main.status := "queued"; Main.data := Main.DataNone |}]>
          (Main._job_results Main.initial);
      Main._job_pool :=
        Main._job_pool Main.initial ++ [("temp_uploads/u1.mp4", default 10 None, "job-1")] |}).
Proof.
  apply (upload_then_analyze (fixed_world clip3) (fixed_world clip3) (fun _ => Ok ())
           "u1" "Holiday.MP4" "u1.mp4" "temp_uploads/u1.mp4" "job-1" None Main.initial).
  - reflexivity.
  - discriminate.
  - reflexivity.
  - reflexivity.
Defined.

End UploadExamples.

(** * More on the job store *)

Section JobsMore.

Import Main.

Variable detector : EmotionDetector.t.

Lemma reachable_rtc s s' :
  reachable detector s -> rtc (step detector) s s' -> reachable detector s'.
Proof.
  intros Hs Hsteps. induction Hsteps as [|s s1 s2 Hstep _ IH]; [done|].
  apply IH. by eapply reachable_step.
Qed.

(** X20: once a job is in the store it stays there, so its status is never
    answered with 404 again. Through any number of steps of the server a
    finished job keeps its record unchanged, and a queued job is either
    unchanged or finished. *)
Theorem job_status_monotone (s s' : state) (job_id : string) (j : job) :
  reachable detector s ->
  rtc (step detector) s s' ->
  _job_results s !! job_id = Some j ->
  exists j' : job,
    job_status s' job_id = StatusInfo job_id j'
    /\ (j' = j \/ (status j = "queued" /\ terminal j')).
Proof.
  intros Hreach Hsteps. revert j Hreach.
  induction Hsteps as [s|s s1 s2 Hstep _ IH]; intros j Hreach Hj.
  - exists j. unfold job_status. rewrite Hj. by split; [|left].
  - pose proof (reachable_consistent detector s Hreach) as Hcons.
    destruct (queued_step detector s s1 job_id j Hstep Hj) as (j1 & Hj1 & Hcase).
    destruct (IH j1 (reachable_step detector s s1 Hreach Hstep) Hj1)
      as (j' & Hst & Hcase').
    exists j'. split; [done|].
    destruct Hcons as [Hjobs Hpool].
    destruct (Hjobs job_id j Hj) as (Hwf & _ & _).
    destruct (well_formed_cases j Hwf) as [Hq|Hterm].
    + destruct Hcase as [->|Ht1]; [done|]. right. split; [done|].
      destruct Hcase' as [->|[_ Ht']]; done.
    + pose proof (terminal_stable detector s s1 job_id j (conj Hjobs Hpool) Hstep Hj Hterm)
        as Hsame.
      assert (j1 = j) as -> by congruence. left.
      destruct Hcase' as [->|[Hq _]]; [done|].
      destruct Hterm as [H|H]; rewrite H in Hq; done.
Qed.

(** X21: running the submitted call of a job on a video of F frames that
    opens, with an interval N of at least 1, is a step of the server after
    which [job_status] reports status done and as data the ceil(F / N)
    results, result k being the analysis of the frame at index k * N with
    frame_index k. *)
Theorem run_stores_results
    (w : world) (video_path : string) (interval : Z) (job_id : string)
    (before after : list pool_call) (s : state) (video : list ndarray) :
  _job_pool s = before ++ (video_path, interval, job_id) :: after ->
  1 <= interval ->
  fs w video_path = Some video ->
  step detector s (after_run detector w video_path interval job_id before after s)
  /\ exists results : list pydict,
       job_status (after_run detector w video_path interval job_id before after s) job_id
         = StatusInfo job_id {| status := "done"; data := DataResults results |}
       /\ Z.of_nat (length results) = (Z.of_nat (length video) + interval - 1) / interval
       /\ forall (k : nat) (frame : ndarray),
           video !! (k * Z.to_nat interval)%nat = Some frame ->
           exists d : pydict,
             results !! k = Some d
             /\ EmotionDetector.analyze_frame detector frame (Z.of_nat k) = Ok d
             /\ d !! "frame_index" = Some (VInt (Z.of_nat k)).
Proof.
  intros Hpool Hn Hv. split; [by apply step_run|].
  destruct (analyze_video_sampled detector (fs w) video_path (Some interval) video Hn Hv)
    as (results & Hr & Hlen & Hres).
  exists results. split; [|split; [exact Hlen|exact Hres]].
  unfold job_status, after_run. simpl.
  rewrite _run_record, lookup_insert_eq, Hr. done.
Qed.

End JobsMore.

Section JobsMoreExamples.

Import Main.

Lemma job_status_monotone_witness :
  exists j' : job,
    job_status (one_job_done demo_detector) "job-1" = StatusInfo "job-1" j'
    /\ (j' = {| status := "queued"; data := DataNone |}
        \/ (status {| status := "queued"; data := DataNone |} = "queued" /\ terminal j')).
Proof.
  apply (job_status_monotone demo_detector one_job_queued (one_job_done demo_detector)
           "job-1" {| status := "queued"; data := DataNone |}).
  - apply (reachable_step demo_detector initial); [apply reachable_initial|].
    apply step_analyze_video. simpl. rewrite dom_empty_L. apply not_elem_of_empty.
  - apply rtc_once.
    apply (step_run demo_detector (fixed_world [plain_frame 2 2 7])
             "temp_uploads/clip.mp4" 1 "job-1" [] []).
    reflexivity.
  - reflexivity.
Defined.

Lemma run_stores_results_witness :
  step demo_detector one_job_queued
    (after_run demo_detector (fixed_world [plain_frame 2 2 7]) "temp_uploads/clip.mp4"
       1 "job-1" [] [] one_job_queued)
  /\ exists results : list pydict,
       job_status
         (after_run demo_detector (fixed_world [plain_frame 2 2 7])
            "temp_uploads/clip.mp4" 1 "job-1" [] [] one_job_queued) "job-1"
         = StatusInfo "job-1" {| status := "done"; data := DataResults results |}
       /\ Z.of_nat (length results) = (Z.of_nat (length [plain_frame 2 2 7]) + 1 - 1) / 1
       /\ forall (k : nat) (frame : ndarray),
           [plain_frame 2 2 7] !! (k * Z.to_nat 1)%nat = Some frame ->
           exists d : pydict,
             results !! k = Some d
             /\ EmotionDetector.analyze_frame demo_detector frame (Z.of_nat k) = Ok d
             /\ d !! "frame_index" = Some (VInt (Z.of_nat k)).
Proof.
  apply (run_stores_results demo_detector (fixed_world [plain_frame 2 2 7])
           "temp_uploads/clip.mp4" 1 "job-1" [] [] one_job_queued [plain_frame 2 2 7]).
  - reflexivity.
  - lia.
  - reflexivity.
Defined.

End JobsMoreExamples.

(** A save that fails makes [upload_video] raise its exception. *)
Example upload_video_save_fails :
  upload_video (fixed_world clip3)
    (fun _ => Raise (Exn "FileNotFoundError" "No such file or directory"))
    "u1" (Some "Holiday.MP4")
  = Raise (Exn "FileNotFoundError" "No such file or directory").
Proof. reflexivity. Qed.
